(** * Easy Print device agent: shallow embedding of the device-side scripts

    The development follows [device_client.py] (the bare MQTT client) and
    [device_gui.py] (the GUI client).  Callbacks become functions from the
    object state and the callback arguments to a new state and the list of
    effects they perform, in program order.  What the outside world decides
    (the HTTP response, whether a file can be written, what the printer
    does, the wall clock) is carried by the event that lets the code run. *)

From Stdlib Require Import String Ascii List ZArith Bool Lia DecimalString.
Import ListNotations.
Local Open Scope string_scope.
Local Open Scope list_scope.
Set Warnings "-register-all".

(** ** Python values and the few library operations the scripts use *)

Module Py.

(** Exceptions the scripts can meet. *)
Inductive exn : Type :=
| AttributeError
| TypeError
| JSONDecodeError
| HTTPError (status : Z)
| RequestException (detail : string)
| OSError (detail : string)
| OtherError (detail : string).

Inductive result (A : Type) : Type :=
| Ok (a : A)
| Err (e : exn).
Arguments Ok {A} a.
Arguments Err {A} e.

(** What [json.loads] returns: [None], booleans, numbers, strings, lists
    and dicts.  A dict is the list of its items, one per key. *)
Inductive json : Type :=
| JNull
| JBool (b : bool)
| JNum (n : Z)
| JStr (s : string)
| JArr (xs : list json)
| JObj (kvs : list (string * json)).

(** Truth value of an object, as [or], [and], [if] and [not] test it. *)
Definition truthy (v : json) : bool :=
  match v with
  | JNull => false
  | JBool b => b
  | JNum n => negb (n =? 0)%Z
  | JStr s => negb (s =? "")
  | JArr xs => match xs with [] => false | _ :: _ => true end
  | JObj kvs => match kvs with [] => false | _ :: _ => true end
  end.

(** [a or b] *)
Definition py_or (a b : json) : json := if truthy a then a else b.

Fixpoint assoc (k : string) (kvs : list (string * json)) : option json :=
  match kvs with
  | [] => None
  | (k', v) :: rest => if k' =? k then Some v else assoc k rest
  end.

(** [d[k]] with [None] for a missing key, once [d] is known to be a dict. *)
Definition item (d : json) (k : string) : json :=
  match d with
  | JObj kvs => match assoc k kvs with Some v => v | None => JNull end
  | _ => JNull
  end.

(** [d.get(k)]: only a dict has the method. *)
Definition dict_get (d : json) (k : string) : result json :=
  match d with
  | JObj _ => Ok (item d k)
  | _ => Err AttributeError
  end.

(** [v == "print"] for a given string literal. *)
Definition eq_str (v : json) (lit : string) : bool :=
  match v with
  | JStr s => s =? lit
  | _ => false
  end.

(** [prefix + v] where [prefix] is a [str]: only a [str] can be added. *)
Definition str_add (prefix : string) (v : json) : result string :=
  match v with
  | JStr s => Ok (prefix ++ s)%string
  | _ => Err TypeError
  end.

(** [v + suffix] where [suffix] is a [str]. *)
Definition add_str (v : json) (suffix : string) : result string :=
  match v with
  | JStr s => Ok (s ++ suffix)%string
  | _ => Err TypeError
  end.

(** [str(int)] in decimal. *)
Definition str_of_int (n : Z) : string := NilZero.string_of_int (Z.to_int n).

(** [s.rstrip("/")]: every trailing slash goes. *)
Fixpoint rstrip_slash (s : string) : string :=
  match s with
  | EmptyString => EmptyString
  | String c rest =>
      match rstrip_slash rest with
      | EmptyString => if Ascii.eqb c "/" then EmptyString else String c EmptyString
      | kept => String c kept
      end
  end.

(** [posixpath.join(a, b)] for two components: an absolute [b] replaces
    [a]; otherwise one slash separates them unless [a] is empty or already
    ends with one. *)
Fixpoint ends_with_slash (a : string) : bool :=
  match a with
  | EmptyString => false
  | String c EmptyString => Ascii.eqb c "/"
  | String _ rest => ends_with_slash rest
  end.

Definition starts_with_slash (b : string) : bool :=
  match b with
  | String c _ => Ascii.eqb c "/"
  | EmptyString => false
  end.

Definition posixpath_join (a b : string) : string :=
  if starts_with_slash b then b
  else if (a =? "") || ends_with_slash a then (a ++ b)%string
  else (a ++ "/" ++ b)%string.

End Py.
Import Py.

(** ** The world around the scripts *)

(** A Python [str], as the list of its code points. *)
Definition text : Type := list N.

(** Module-level constants and library functions the scripts call.
    [json_loads] stands for [json.loads(payload.decode("utf-8", "ignore"))]
    ([None] when it raises); [py_repr] for [str()] of a list or a dict;
    [utf8_decode] for [payload.decode("utf-8")] ([None] when it raises);
    [bytes_str] for [str()] of a bytes object; [ntpath_join] for
    [os.path.join] on Windows. *)
Record world : Type := mkWorld {
  json_loads : string -> option json;
  py_repr : json -> string;
  PRINT_SERVICE_API : string;
  tempdir : string;           (* tempfile.gettempdir() *)
  mqtt_available : bool;      (* [mqtt is not None] *)
  IS_WINDOWS : bool;
  IS_LINUX : bool;
  win32print : bool;          (* the module was imported *)
  cups : bool;
  utf8_decode : string -> option text;
  bytes_str : string -> text;
  ntpath_join : string -> string -> string
}.

Definition MQTT_RECONNECT_INTERVAL : Z := 5.

(** [os.path.join(a, b)]: [ntpath.join] on Windows, [posixpath.join]
    elsewhere. *)
Definition os_path_join (w : world) (a b : string) : string :=
  if IS_WINDOWS w then ntpath_join w a b else posixpath_join a b.

(** [str(payload)[:400]], where [payload] is the decoded text of the
    message, or the bytes themselves when they are not UTF-8. *)
Definition shown_payload (w : world) (payload : string) : text :=
  firstn 400
    match utf8_decode w payload with
    | Some decoded => decoded
    | None => bytes_str w payload
    end.

(** [str(v)], as an f-string formats a value. *)
Definition py_str (w : world) (v : json) : string :=
  match v with
  | JStr s => s
  | JNum n => str_of_int n
  | JBool true => "True"
  | JBool false => "False"
  | JNull => "None"
  | _ => py_repr w v
  end.

(** [f"devices/{device_uuid}/commands"] and [f"devices/{device_uuid}/logs"] *)
Definition commands_topic (device_uuid : string) : string :=
  ("devices/" ++ device_uuid ++ "/commands")%string.

Definition logs_topic (device_uuid : string) : string :=
  ("devices/" ++ device_uuid ++ "/logs")%string.

(** Outcome of [requests.get]: it raises, or a response comes back. *)
Inductive http_outcome : Type :=
| HttpRaises (e : exn)
| HttpResponse (status : Z) (content : string).

(** [r.raise_for_status()] *)
Definition raise_for_status (status : Z) : option exn :=
  if ((400 <=? status) && (status <? 600))%Z then Some (HTTPError status) else None.

(** Outcome of [requests.post] for the session request; [body] is what
    [r.json()] gives, [None] when it raises. *)
Inductive post_outcome : Type :=
| PostRaises (e : exn)
| PostResponse (status : Z) (text : string) (body : option json).

(** What the local printing stack answers during one job. *)
Record printer_env : Type := mkPrinter {
  win_default_printer : result string;  (* win32print.GetDefaultPrinter() *)
  shell_execute : option exn;           (* win32api.ShellExecute(...) raises? *)
  cups_printers : result (list string); (* Connection() and getPrinters() keys *)
  cups_print_file : result Z            (* conn.printFile(...) *)
}.

(** What decoding or generating the QR picture does. *)
Record qr_env : Type := mkQr {
  b64_load : option exn;      (* base64.b64decode + QPixmap.loadFromData *)
  qrcode_make : option exn    (* import qrcode; qrcode.make(...) *)
}.

(** ** Effects *)

(** One constructor per [signals.log.emit] / [print] site. *)
Inductive log_msg : Type :=
| L_connected (rc : Z)
| L_subscribed (topic : string)
| L_disconnected
| L_msg (topic : string) (shown : text)
| L_parse_failed
| L_mqtt_unavailable
| L_conn_error (e : exn) (retry_in : Z)
| L_start (job_id url : json)
| L_download_failed (e : exn)
| L_saved_to (path : string)
| L_save_failed (e : exn)
| L_printing_to (printer : string)
| L_shell_sent
| L_shell_failed (e : exn)
| L_win_failed (e : exn)
| L_cups_sent (printer : string) (jobid : Z)
| L_cups_none
| L_cups_error (e : exn)
| L_no_printing
| L_published
| L_publish_failed (e : exn)
| L_no_secret
| L_requesting (lifetime : Z) (url : string)
| L_request_failed (e : exn)
| L_server_returned (status : Z) (text : string)
| L_invalid_json
| L_got_upload_url (v : json)
| L_qr_updated
| L_qr_load_failed (e : exn)
| L_qr_generated
| L_qr_gen_failed (e : exn)
| L_no_qr
| L_no_url
| L_url_copied
| P_connected (rc : Z)
| P_msg (topic payload : string)
| P_downloading (url : json)
| P_saved (job : json).

Inductive qr_source : Type :=
| QrFromResponse (qr_b64 : json)
| QrFromUrl (upload_url : json).

Inductive action : Type :=
| Log (m : log_msg)
| Subscribe (topic : string) (qos : Z)
| Publish (topic : string) (payload : json) (qos : Z)
| StartThread (job : json)
| HttpGet (url : json) (timeout : option Z)
| HttpPost (url : string) (bearer : string) (body : json) (timeout : Z)
| WriteFile (path : string) (content : string)
| ShellPrint (path : string)
| CupsPrint (printer path : string) (title : json)
| EmitQr (src : qr_source)
| ClipboardSet (v : json)
| Sleep (secs : Z)
| Uncaught (e : exn).

Definition is_publish (a : action) : bool :=
  match a with Publish _ _ _ => true | _ => false end.

Definition is_http_get (a : action) : bool :=
  match a with HttpGet _ _ => true | _ => false end.

Definition is_start_thread (a : action) : bool :=
  match a with StartThread _ => true | _ => false end.

Definition is_subscribe_to (topic : string) (a : action) : bool :=
  match a with Subscribe t q => (t =? topic) && (q =? 1)%Z | _ => false end.

Definition is_uncaught (a : action) : bool :=
  match a with Uncaught _ => true | _ => false end.

(** The status messages published in a trace, and the delays slept. *)
Definition publishes (tr : list action) : list action := filter is_publish tr.

Fixpoint sleeps (tr : list action) : list Z :=
  match tr with
  | [] => []
  | Sleep s :: rest => s :: sleeps rest
  | _ :: rest => sleeps rest
  end.

(** The [status] field of a published payload. *)
Definition status_of (a : action) : json :=
  match a with Publish _ p _ => item p "status" | _ => JNull end.

(** ** [device_client.py] *)

Definition on_connect (device_uuid : string) (rc : Z) : list action :=
  [Log (P_connected rc); Subscribe (commands_topic device_uuid) 1].

(** [on_message]: nothing is caught, so whatever raises ends the callback.
    [dl] is what [requests.get(url)] does and [fs] whether
    [open(...).write(...)] raises. *)
Definition on_message (w : world) (device_uuid : string) (topic payload : string)
    (dl : http_outcome) (fs : option exn) : list action :=
  Log (P_msg topic payload) ::
  match json_loads w payload with
  | None => [Uncaught JSONDecodeError]
  | Some data =>
      match dict_get data "command" with
      | Err e => [Uncaught e]
      | Ok c =>
          if eq_str c "print" then
            let url := item data "url" in
            let job := item data "job_id" in
            Log (P_downloading url) :: HttpGet url None ::
            match dl with
            | HttpRaises e => [Uncaught e]
            | HttpResponse _ content =>
                match add_str job ".bin" with
                | Err e => [Uncaught e]
                | Ok path =>
                    match fs with
                    | Some e => [Uncaught e]
                    | None =>
                        [WriteFile path content;
                         Log (P_saved job);
                         Publish (logs_topic device_uuid)
                           (JObj [("job_id", job); ("status", JStr "completed")]) 1]
                    end
                end
            end
          else []
      end
  end.

(** The callbacks paho runs for the bare client, with what the world
    answers inside them. *)
Inductive client_event : Type :=
| CConnect (rc : Z)
| CMessage (topic payload : string) (dl : http_outcome) (fs : option exn).

Definition client_step (w : world) (device_uuid : string) (ev : client_event)
  : list action :=
  match ev with
  | CConnect rc => on_connect device_uuid rc
  | CMessage topic payload dl fs => on_message w device_uuid topic payload dl fs
  end.

(** [client.loop_forever()]: callbacks run one after the other; an
    exception that escapes a callback ends the script. *)
Fixpoint client_run (w : world) (device_uuid : string) (evs : list client_event)
  : list (client_event * list action) :=
  match evs with
  | [] => []
  | ev :: rest =>
      let acts := client_step w device_uuid ev in
      (ev, acts) ::
      (if existsb is_uncaught acts then [] else client_run w device_uuid rest)
  end.

(** ** [device_gui.py]: the [DeviceGUI] object *)

(** A job thread started by [_on_mqtt_message].  [_handle_print_job] reads
    the object's fields only in its last block, so a thread is either not
    yet past the download/save/print part, about to publish, or over. *)
Inductive thread : Type :=
| Spawned (job : json)
| Saved (job_id : json)
| Finished.

Record gui : Type := mkGui {
  client_secret : json;
  device_uuid : string;
  mqtt_client : bool;           (* [self.mqtt_client] is set *)
  mqtt_connected : bool;
  current_upload_url : json;
  last_session_token : json;
  threads : list thread
}.

Definition set_mqtt_connected (b : bool) (st : gui) : gui :=
  mkGui (client_secret st) (device_uuid st) (mqtt_client st) b
        (current_upload_url st) (last_session_token st) (threads st).

Definition set_mqtt_client (b : bool) (st : gui) : gui :=
  mkGui (client_secret st) (device_uuid st) b (mqtt_connected st)
        (current_upload_url st) (last_session_token st) (threads st).

Definition set_session (upload_url token : json) (st : gui) : gui :=
  mkGui (client_secret st) (device_uuid st) (mqtt_client st) (mqtt_connected st)
        upload_url token (threads st).

Definition set_threads (ts : list thread) (st : gui) : gui :=
  mkGui (client_secret st) (device_uuid st) (mqtt_client st) (mqtt_connected st)
        (current_upload_url st) (last_session_token st) ts.

Fixpoint set_nth {A : Type} (n : nat) (x : A) (l : list A) : list A :=
  match l, n with
  | [], _ => []
  | _ :: rest, O => x :: rest
  | y :: rest, S m => y :: set_nth m x rest
  end.

(** *** MQTT callbacks *)

Definition _on_mqtt_connect (st : gui) (rc : Z) : gui * list action :=
  let topic := commands_topic (device_uuid st) in
  (set_mqtt_connected true st,
   [Log (L_connected rc); Subscribe topic 1; Log (L_subscribed topic)]).

Definition _on_mqtt_disconnect (st : gui) (rc : Z) : gui * list action :=
  (set_mqtt_connected false st, [Log L_disconnected]).

Definition _on_mqtt_message (w : world) (st : gui) (topic payload : string)
  : gui * list action :=
  let seen := Log (L_msg topic (shown_payload w payload)) in
  match json_loads w payload with
  | None => (st, [seen; Log L_parse_failed])
  | Some job =>
      match dict_get job "command" with
      | Err e => (st, [seen; Uncaught e])
      | Ok c =>
          if eq_str c "print" then
            (set_threads (threads st ++ [Spawned job]) st, [seen; StartThread job])
          else (st, [seen])
      end
  end.

(** *** [_mqtt_connect_loop]

    One turn of the [while True] is [client.connect(...)] followed by
    [client.loop_forever()], which runs the callbacks until it returns or
    raises.  The two halves are separate events so that callbacks and job
    threads can run in between. *)

Definition loop_connect (w : world) (st : gui) (r : option exn) : gui * list action :=
  if negb (mqtt_available w) then (st, [Log L_mqtt_unavailable])
  else
    match r with
    | Some e =>
        (st, [Log (L_conn_error e MQTT_RECONNECT_INTERVAL); Sleep MQTT_RECONNECT_INTERVAL])
    | None => (set_mqtt_client true st, [])
    end.

Definition loop_forever_ends (st : gui) (r : option exn) : gui * list action :=
  match r with
  | Some e =>
      (st, [Log (L_conn_error e MQTT_RECONNECT_INTERVAL); Sleep MQTT_RECONNECT_INTERVAL])
  | None => (st, [])
  end.

(** *** [_handle_print_job] *)

(** The platform-specific printing block. *)
Definition print_locally (w : world) (pr : printer_env) (tmpfd : string) (job_id : json)
  : list action :=
  if IS_WINDOWS w && win32print w then
    match win_default_printer pr with
    | Err e => [Log (L_win_failed e)]
    | Ok printer_name =>
        Log (L_printing_to printer_name) ::
        match shell_execute pr with
        | None => [ShellPrint tmpfd; Log L_shell_sent]
        | Some e => [Log (L_shell_failed e)]
        end
    end
  else if IS_LINUX w && cups w then
    match cups_printers pr with
    | Err e => [Log (L_cups_error e)]
    | Ok [] => [Log L_cups_none]
    | Ok (default_printer :: _) =>
        if default_printer =? "" then [Log L_cups_none]
        else
          match cups_print_file pr with
          | Ok jobid =>
              [CupsPrint default_printer tmpfd job_id; Log (L_cups_sent default_printer jobid)]
          | Err e => [Log (L_cups_error e)]
          end
    end
  else [Log L_no_printing].

(** [job_id = job.get("job_id") or f"job_{int(time.time())}"] *)
Definition job_id_of (now : Z) (job : json) : json :=
  py_or (item job "job_id") (JStr ("job_" ++ str_of_int now)).

(** [os.path.join(tempfile.gettempdir(), f"{job_id}.bin")] *)
Definition tmp_path (w : world) (job_id : json) : string :=
  os_path_join w (tempdir w) (py_str w job_id ++ ".bin").

(** Download, save and print.  Returns the job id when control reaches
    the publish block and [None] after an early [return]. *)
Definition _handle_print_job_fetch (w : world) (now : Z) (job : json)
    (dl : http_outcome) (fs : option exn) (pr : printer_env)
  : option json * list action :=
  let url := item job "url" in
  let job_id := job_id_of now job in
  let head := [Log (L_start job_id url); HttpGet url (Some 15%Z)] in
  let downloaded : result string :=
    match dl with
    | HttpRaises e => Err e
    | HttpResponse status content =>
        match raise_for_status status with
        | Some e => Err e
        | None => Ok content
        end
    end in
  match downloaded with
  | Err e => (None, head ++ [Log (L_download_failed e)])
  | Ok content =>
      let tmpfd := tmp_path w job_id in
      match fs with
      | Some e => (None, head ++ [Log (L_save_failed e)])
      | None =>
          (Some job_id,
           head ++ [WriteFile tmpfd content; Log (L_saved_to tmpfd)]
                ++ print_locally w pr tmpfd job_id)
      end
  end.

(** The publish block; [pub] is whether [publish] raises. *)
Definition _handle_print_job_ack (st : gui) (now : Z) (job_id : json) (pub : option exn)
  : list action :=
  if mqtt_client st && mqtt_connected st then
    match pub with
    | Some e => [Log (L_publish_failed e)]
    | None =>
        [Publish (logs_topic (device_uuid st))
           (JObj [("job_id", job_id); ("status", JStr "completed");
                  ("timestamp", JNum now)]) 1;
         Log L_published]
    end
  else [].

(** The whole of [_handle_print_job], run from start to end: [t0] is the
    clock at its first line, [t1] the clock and [st] the object when the
    publish block runs. *)
Definition _handle_print_job (w : world) (st : gui) (t0 t1 : Z) (job : json)
    (dl : http_outcome) (fs : option exn) (pr : printer_env) (pub : option exn)
  : list action :=
  match _handle_print_job_fetch w t0 job dl fs pr with
  | (Some job_id, acts) => acts ++ _handle_print_job_ack st t1 job_id pub
  | (None, acts) => acts
  end.

(** *** Pairing session *)

Definition show_qr (qr : qr_env) (qr_b64 upload_url : json) : list action :=
  if truthy qr_b64 then
    match b64_load qr with
    | None => [EmitQr (QrFromResponse qr_b64); Log L_qr_updated]
    | Some e => [Log (L_qr_load_failed e)]
    end
  else if truthy upload_url then
    match qrcode_make qr with
    | None => [EmitQr (QrFromUrl upload_url); Log L_qr_generated]
    | Some e => [Log (L_qr_gen_failed e)]
    end
  else [Log L_no_qr].

(** [PRINT_SERVICE_API.rstrip("/")] *)
Definition api_base (w : world) : string := rstrip_slash (PRINT_SERVICE_API w).

(** [upload_url or (api + "/session_upload?token=" + token if token else None)] *)
Definition upload_url_or_synth (w : world) (upload_url token : json) : result json :=
  if truthy upload_url then Ok upload_url
  else if truthy token then
    match str_add (api_base w ++ "/session_upload?token=") token with
    | Ok s => Ok (JStr s)
    | Err e => Err e
    end
  else Ok JNull.

Definition request_session_qr (w : world) (st : gui) (lifetime : Z)
    (resp : post_outcome) (qr : qr_env) : gui * list action :=
  if negb (truthy (client_secret st)) then (st, [Log L_no_secret])
  else
    let url := (api_base w ++ "/api/device/session")%string in
    let head :=
      [Log (L_requesting lifetime url);
       HttpPost url (py_str w (client_secret st)) (JObj [("lifetime", JNum lifetime)]) 10] in
    match resp with
    | PostRaises e => (st, head ++ [Log (L_request_failed e)])
    | PostResponse status text body =>
        if negb (status =? 200)%Z then (st, head ++ [Log (L_server_returned status text)])
        else
          match body with
          | None => (st, head ++ [Log L_invalid_json])
          | Some (JObj kvs) =>
              let j := JObj kvs in
              let upload_url :=
                py_or (py_or (item j "upload_url") (item j "uploadUrl")) (item j "upload_url") in
              let qr_b64 := py_or (item j "qr_base64") (item j "qr") in
              let token := py_or (item j "token") (item j "session_token") in
              match upload_url_or_synth w upload_url token with
              | Err e => (st, head ++ [Uncaught e])
              | Ok current =>
                  (set_session current token st,
                   head ++ [Log (L_got_upload_url current)] ++ show_qr qr qr_b64 current)
              end
          | Some _ => (st, head ++ [Uncaught AttributeError])
          end
    end.

Definition copy_upload_url (st : gui) : list action :=
  if negb (truthy (current_upload_url st)) then [Log L_no_url]
  else [ClipboardSet (current_upload_url st); Log L_url_copied].

(** *** The GUI process as a transition system *)

(** What can happen to the process: paho invokes a callback, the connect
    loop moves on, a job thread runs one of its two parts, the user asks
    for a session or copies the upload URL. *)
Inductive event : Type :=
| MqttConnect (rc : Z)
| MqttDisconnect (rc : Z)
| MqttMessage (topic payload : string)
| LoopConnect (r : option exn)
| LoopForeverEnds (r : option exn)
| JobFetch (tid : nat) (dl : http_outcome) (fs : option exn) (pr : printer_env)
| JobAck (tid : nat) (pub : option exn)
| RequestSession (lifetime : Z) (resp : post_outcome) (qr : qr_env)
| CopyUploadUrl.

(** One event at wall-clock time [now] ([time.time()]).  An exception
    that escapes a callback is recorded as [Uncaught]; it leaves
    [loop_forever], which is the event [LoopForeverEnds] of the run. *)
Definition step (w : world) (st : gui) (now : Z) (ev : event) : gui * list action :=
  match ev with
  | MqttConnect rc => _on_mqtt_connect st rc
  | MqttDisconnect rc => _on_mqtt_disconnect st rc
  | MqttMessage topic payload => _on_mqtt_message w st topic payload
  | LoopConnect r => loop_connect w st r
  | LoopForeverEnds r => loop_forever_ends st r
  | JobFetch tid dl fs pr =>
      match nth_error (threads st) tid with
      | Some (Spawned job) =>
          let out := _handle_print_job_fetch w now job dl fs pr in
          let next := match fst out with Some job_id => Saved job_id | None => Finished end in
          (set_threads (set_nth tid next (threads st)) st, snd out)
      | _ => (st, [])
      end
  | JobAck tid pub =>
      match nth_error (threads st) tid with
      | Some (Saved job_id) =>
          (set_threads (set_nth tid Finished (threads st)) st,
           _handle_print_job_ack st now job_id pub)
      | _ => (st, [])
      end
  | RequestSession lifetime resp qr => request_session_qr w st lifetime resp qr
  | CopyUploadUrl => (st, copy_upload_url st)
  end.

Fixpoint final (w : world) (st : gui) (evs : list (Z * event)) : gui :=
  match evs with
  | [] => st
  | (now, ev) :: rest => final w (fst (step w st now ev)) rest
  end.

(** Each event with the effects it caused, in order. *)
Fixpoint history (w : world) (st : gui) (evs : list (Z * event))
  : list (event * list action) :=
  match evs with
  | [] => []
  | (now, ev) :: rest =>
      (ev, snd (step w st now ev)) :: history w (fst (step w st now ev)) rest
  end.

Definition trace (w : world) (st : gui) (evs : list (Z * event)) : list action :=
  concat (map snd (history w st evs)).

(** ** Vocabulary of the properties *)

(** Connection periods.  A period opens when the connect callback runs and
    is [Resubscribed] when that callback issued the subscription. *)
Inductive conn_label : Type := Entered | Dropped | Inbound | Other.

Inductive period : Type := NotConnected | Resubscribed | Unsubscribed.

Definition gui_label (h : event * list action) : conn_label * list action :=
  (match fst h with
   | MqttConnect _ => Entered
   | MqttDisconnect _ => Dropped
   | MqttMessage _ _ => Inbound
   | _ => Other
   end, snd h).

Definition client_label (h : client_event * list action) : conn_label * list action :=
  (match fst h with
   | CConnect _ => Entered
   | CMessage _ _ _ _ => Inbound
   end, snd h).

(** Accepts a history when no inbound message is handled in a period that
    opened without the subscription to [topic]. *)
Fixpoint resubscribe_audit (topic : string) (p : period)
    (h : list (conn_label * list action)) : bool :=
  match h with
  | [] => true
  | (Entered, acts) :: rest =>
      resubscribe_audit topic
        (if existsb (is_subscribe_to topic) acts then Resubscribed else Unsubscribed) rest
  | (Dropped, _) :: rest => resubscribe_audit topic NotConnected rest
  | (Inbound, _) :: rest =>
      match p with
      | Unsubscribed => false
      | _ => resubscribe_audit topic p rest
      end
  | (Other, _) :: rest => resubscribe_audit topic p rest
  end.

(** Does the payload parse to a dict whose [command] is ["print"]? *)
Definition is_print_command (w : world) (payload : string) : bool :=
  match json_loads w payload with
  | Some (JObj kvs) => eq_str (item (JObj kvs) "command") "print"
  | _ => false
  end.

Definition is_print_event (w : world) (e : Z * event) : bool :=
  match snd e with
  | MqttMessage _ payload => is_print_command w payload
  | _ => false
  end.

(** The jobs handed to a thread in a trace. *)
Fixpoint started (tr : list action) : list json :=
  match tr with
  | [] => []
  | StartThread job :: rest => job :: started rest
  | _ :: rest => started rest
  end.

(** The job id a live thread works on. *)
Definition works_on (id : string) (t : thread) : bool :=
  match t with
  | Spawned job => eq_str (item job "job_id") id
  | Saved job_id => eq_str job_id id
  | Finished => false
  end.

(** Number of executions in flight for a job id. *)
Definition in_flight (id : string) (st : gui) : nat :=
  length (filter (works_on id) (threads st)).

(** The download gave bytes [_handle_print_job] goes on with. *)
Definition download_ok (dl : http_outcome) : bool :=
  match dl with
  | HttpRaises _ => false
  | HttpResponse status _ =>
      match raise_for_status status with Some _ => false | None => true end
  end.

Definition no_exn (r : option exn) : bool :=
  match r with None => true | Some _ => false end.

(** Failures of the connect loop that lead to a sleep. *)
Definition is_loop_failure (e : Z * event) : bool :=
  match snd e with
  | LoopConnect (Some _) => true
  | LoopForeverEnds (Some _) => true
  | _ => false
  end.

Definition is_connection_event (e : Z * event) : bool :=
  match snd e with
  | MqttConnect _ | MqttDisconnect _ | LoopConnect _ | LoopForeverEnds _ => true
  | _ => false
  end.

Definition is_session_request (e : Z * event) : bool :=
  match snd e with
  | RequestSession _ _ _ => true
  | _ => false
  end.

(** The held pairing session: upload URL and token. *)
Definition held_session (st : gui) : json * json :=
  (current_upload_url st, last_session_token st).

(** The reconnect delay the specification describes: [base] doubled at
    each failed attempt, at most [cap]. *)
Definition spec_backoff_delay (base cap : Z) (attempt : nat) : Z :=
  Z.min cap (base * 2 ^ Z.of_nat attempt).

(** [requests.get] came back with a response, whatever its status. *)
Definition http_returned (dl : http_outcome) : bool :=
  match dl with HttpRaises _ => false | HttpResponse _ _ => true end.

Definition is_str (v : json) : bool :=
  match v with JStr _ => true | _ => false end.

(** The two parts of job thread [tid]. *)
Definition is_job_event_of (tid : nat) (e : Z * event) : bool :=
  match snd e with
  | JobFetch t _ _ _ => Nat.eqb t tid
  | JobAck t _ => Nat.eqb t tid
  | _ => false
  end.

(** The status message of the GUI client. *)
Definition completed_msg (st : gui) (job_id : json) (now : Z) : action :=
  Publish (logs_topic (device_uuid st))
    (JObj [("job_id", job_id); ("status", JStr "completed"); ("timestamp", JNum now)]) 1.



(** The fields [request_session_qr] reads from a response dict. *)
Definition response_upload_url (j : json) : json :=
  py_or (py_or (item j "upload_url") (item j "uploadUrl")) (item j "upload_url").

Definition response_qr (j : json) : json := py_or (item j "qr_base64") (item j "qr").

Definition response_token (j : json) : json :=
  py_or (item j "token") (item j "session_token").

(** A 200 answer whose body parsed. *)
Definition is_200_json (resp : post_outcome) : bool :=
  match resp with
  | PostResponse status _ (Some _) => (status =? 200)%Z
  | _ => false
  end.

(** ** A concrete world for the examples *)

Definition dq : string := String "034"%char EmptyString.

Definition quoted (s : string) : string := (dq ++ s ++ dq)%string.

(** [json.dumps] of a flat dict of strings, without spaces. *)
Fixpoint dumps_fields (kvs : list (string * string)) : string :=
  match kvs with
  | [] => ""
  | [(k, v)] => (quoted k ++ ":" ++ quoted v)%string
  | (k, v) :: rest => (quoted k ++ ":" ++ quoted v ++ "," ++ dumps_fields rest)%string
  end.

Definition dumps_flat (kvs : list (string * string)) : string :=
  ("{" ++ dumps_fields kvs ++ "}")%string.

Definition obj_of (kvs : list (string * string)) : json :=
  JObj (map (fun kv => (fst kv, JStr (snd kv))) kvs).

Definition cmd_j1 : list (string * string) :=
  [("command", "print"); ("job_id", "j1"); ("url", "http://x/doc.pdf")].

Definition cmd_no_id : list (string * string) :=
  [("command", "print"); ("job_id", ""); ("url", "doc.pdf")].

Definition cmd_anon : list (string * string) :=
  [("command", "print"); ("job_id", ""); ("url", "http://x/doc.pdf")].

Definition cmd_abs : list (string * string) :=
  [("command", "print"); ("job_id", "/etc/cron.d/x"); ("url", "http://x/doc.pdf")].

Definition cmd_status : list (string * string) := [("command", "status")].

Definition demo_payloads : list (list (string * string)) :=
  [cmd_j1; cmd_no_id; cmd_anon; cmd_abs; cmd_status].

(** [json.loads] on the payloads above; anything else here is not JSON. *)
Definition demo_loads (payload : string) : option json :=
  option_map obj_of (find (fun kvs => dumps_flat kvs =? payload) demo_payloads).

(** [decode("utf-8")] on ASCII bytes; anything else here is taken as not
    UTF-8. *)
Definition demo_decode (payload : string) : option text :=
  let codes := map N_of_ascii (list_ascii_of_string payload) in
  if forallb (fun c => (c <? 128)%N) codes then Some codes else None.

Definition demo : world :=
  mkWorld demo_loads (fun _ => "") "http://localhost:8000/" "/tmp"
          true false true false true
          demo_decode (fun payload => map N_of_ascii (list_ascii_of_string payload))
          (fun a b => (a ++ "\" ++ b)%string).

Definition gui0 : gui := mkGui (JStr "s3cret") "dev1" false false JNull JNull [].

Definition cups_ok : printer_env := mkPrinter (Err (OtherError "")) None (Ok ["lp0"]) (Ok 7%Z).

Definition cups_down : printer_env :=
  mkPrinter (Err (OtherError "")) None (Err (OtherError "cups")) (Err (OtherError "cups")).

Definition qr_ok : qr_env := mkQr None None.

Definition topic1 : string := commands_topic "dev1".

(** ** The rest of the scripts *)

(** *** Credentials file and start-up of the GUI *)

(** What is found at [CREDENTIALS_FILE]: nothing, something that cannot
    be opened or parsed, or a JSON document.  [json.dump] followed by
    [json.load] gives the document back. *)
Inductive cred_file : Type :=
| NoFile
| Unreadable (e : exn)
| Document (data : json).

Inductive boot_log : Type :=
| BL_not_found
| BL_missing_field
| BL_read_error (e : exn).

(** [_load_credentials]: the values left in [self.client_secret] and
    [self.device_uuid] (both [None] before), and what it emits.  The second
    lookup, ["client_secret".lower()], is the same key. *)
Definition _load_credentials (file : cred_file) : json * json * list boot_log :=
  match file with
  | NoFile => (JNull, JNull, [BL_not_found])
  | Unreadable e => (JNull, JNull, [BL_read_error e])
  | Document data =>
      match dict_get data "client_secret" with
      | Err e => (JNull, JNull, [BL_read_error e])
      | Ok first =>
          let secret := py_or first (item data "client_secret") in
          let uuid := item data "device_uuid" in
          (secret, uuid,
           if negb (truthy secret) || negb (truthy uuid) then [BL_missing_field] else [])
      end
  end.

(** What [__init__] does.  [_load_credentials] runs before
    [_connect_signals], so what it emits meets no slot. *)
Inductive init_action : Type :=
| Unheard (m : boot_log)
| StartPollThread
| StartMqttThread
| Ran (a : action).

(** [DeviceGUI.__init__]; the [device_uuid] field holds the text the
    f-strings make of the loaded value. *)
Definition __init__ (w : world) (file : cred_file) (resp : post_outcome) (qr : qr_env)
  : gui * list init_action :=
  let '(secret, uuid, emitted) := _load_credentials file in
  let st := mkGui secret (py_str w uuid) false false JNull JNull [] in
  if truthy secret && truthy uuid then
    let r := request_session_qr w st 300 resp qr in
    (fst r, map Unheard emitted ++ [StartPollThread; StartMqttThread] ++ map Ran (snd r))
  else (st, map Unheard emitted).

(** The lines that reach the log view. *)
Fixpoint log_view (acts : list init_action) : list log_msg :=
  match acts with
  | [] => []
  | Ran (Log m) :: rest => m :: log_view rest
  | _ :: rest => log_view rest
  end.

Definition is_thread_start (a : init_action) : bool :=
  match a with StartPollThread | StartMqttThread => true | _ => false end.

Definition is_http_post (a : action) : bool :=
  match a with HttpPost _ _ _ _ => true | _ => false end.

Fixpoint ran (acts : list init_action) : list action :=
  match acts with
  | [] => []
  | Ran a :: rest => a :: ran rest
  | _ :: rest => ran rest
  end.

(** *** [_poll_devices_loop] *)

Definition POLL_DEVICES_INTERVAL : Z := 10.

Inductive poll_log : Type :=
| PL_endpoint_returned (status : Z)
| PL_poll_error (e : exn).

Inductive poll_action : Type :=
| PollGet (url : string) (timeout : Z)
| EmitStatus (status : json)
| PollLog (m : poll_log)
| PollSleep (secs : Z).

(** [d.get(k, default)] on a dict. *)
Definition item_default (d : json) (k : string) (default : json) : json :=
  match d with
  | JObj kvs => match assoc k kvs with Some v => v | None => default end
  | _ => default
  end.

Fixpoint chars (s : string) : list json :=
  match s with
  | EmptyString => []
  | String c rest => JStr (String c EmptyString) :: chars rest
  end.

(** What [for dev in arr] goes through: the elements of a list, the keys
    of a dict, the characters of a string; nothing else can be iterated. *)
Definition iterate (arr : json) : result (list json) :=
  match arr with
  | JArr xs => Ok xs
  | JObj kvs => Ok (map (fun kv => JStr (fst kv)) kvs)
  | JStr s => Ok (chars s)
  | _ => Err TypeError
  end.

(** The [for] loop with its [break]: [status] starts as ["offline"]. *)
Fixpoint scan_devices (device_uuid : string) (devs : list json) : result json :=
  match devs with
  | [] => Ok (JStr "offline")
  | dev :: rest =>
      match dict_get dev "uuid" with
      | Err e => Err e
      | Ok u =>
          if eq_str u device_uuid
          then Ok (item_default dev "status" (JStr "offline"))
          else scan_devices device_uuid rest
      end
  end.

(** One turn of the [while True]; [resp] is what [requests.get] and
    [r.json()] do.  [signals.status] is a [pyqtSignal(str)]: emitting
    anything but a string raises [TypeError], inside the [try]. *)
Definition poll_devices_once (w : world) (st : gui) (resp : post_outcome)
  : list poll_action :=
  PollGet (api_base w ++ "/api/devices/") 6 ::
  match resp with
  | PostRaises e => [PollLog (PL_poll_error e)]
  | PostResponse status _ body =>
      if (status =? 200)%Z then
        match body with
        | None => [PollLog (PL_poll_error JSONDecodeError)]
        | Some arr =>
            match iterate arr with
            | Err e => [PollLog (PL_poll_error e)]
            | Ok devs =>
                match scan_devices (device_uuid st) devs with
                | Err e => [PollLog (PL_poll_error e)]
                | Ok (JStr status) => [EmitStatus (JStr status)]
                | Ok _ => [PollLog (PL_poll_error TypeError)]
                end
            end
        end
      else [PollLog (PL_endpoint_returned status)]
  end ++ [PollSleep POLL_DEVICES_INTERVAL].

Fixpoint _poll_devices_loop (w : world) (st : gui) (resps : list post_outcome)
  : list poll_action :=
  match resps with
  | [] => []
  | resp :: rest => poll_devices_once w st resp ++ _poll_devices_loop w st rest
  end.

Definition is_device (device_uuid : string) (dev : json) : bool :=
  match dev with
  | JObj _ => eq_str (item dev "uuid") device_uuid
  | _ => false
  end.

Definition is_other_device (device_uuid : string) (dev : json) : bool :=
  match dev with
  | JObj _ => negb (eq_str (item dev "uuid") device_uuid)
  | _ => false
  end.

Fixpoint statuses (tr : list poll_action) : list json :=
  match tr with
  | [] => []
  | EmitStatus s :: rest => s :: statuses rest
  | _ :: rest => statuses rest
  end.

Fixpoint poll_sleeps (tr : list poll_action) : list Z :=
  match tr with
  | [] => []
  | PollSleep s :: rest => s :: poll_sleeps rest
  | _ :: rest => poll_sleeps rest
  end.

Definition is_poll_get (a : poll_action) : bool :=
  match a with PollGet _ _ => true | _ => false end.

(** *** [device_qr.py] and [provision_client.py] *)

Inductive console : Type :=
| Say_run_provision_and_save
| Say_status (status : Z) (text : string)
| Say_upload_url (v : json)
| Say_saved_qr
| Say_saved_credentials.

Inductive file_content : Type :=
| Bytes (data : string)
| JsonDoc (data : json).

Inductive script_action : Type :=
| SPrint (c : console)
| SPost (url : string) (bearer : option string) (body : json)
| SWrite (path : string) (content : file_content)
| STruncate (path : string)
| SExit (code : Z)
| SUncaught (e : exn).

(** [r.ok] *)
Definition response_ok (status : Z) : bool :=
  match raise_for_status status with Some _ => false | None => true end.

(** [show_image_bytes]: [base64.b64decode] takes a string ([b64decode]
    says what it makes of it) and raises [TypeError] on anything else
    JSON can hold. *)
Definition show_image_bytes (b64decode : string -> result string) (b64 : json)
    (fs : option exn) : list script_action :=
  match b64 with
  | JStr s =>
      match b64decode s with
      | Err e => [SUncaught e]
      | Ok data =>
          match fs with
          | Some e => [SUncaught e]
          | None => [SWrite "session_qr.png" (Bytes data); SPrint Say_saved_qr]
          end
      end
  | _ => [SUncaught TypeError]
  end.

(** [request_and_show], with [load_creds] inlined. *)
Definition request_and_show (w : world) (b64decode : string -> result string)
    (file : cred_file) (lifetime : Z) (resp : post_outcome) (fs : option exn)
  : list script_action :=
  match file with
  | NoFile => [SPrint Say_run_provision_and_save; SExit 1]
  | Unreadable e => [SUncaught e]
  | Document cred =>
      match dict_get cred "client_secret" with
      | Err e => [SUncaught e]
      | Ok secret =>
          SPost (PRINT_SERVICE_API w ++ "/api/device/session") (Some (py_str w secret))
                (JObj [("lifetime", JNum lifetime)]) ::
          match resp with
          | PostRaises e => [SUncaught e]
          | PostResponse status text body =>
              SPrint (Say_status status text) ::
              if response_ok status then
                match body with
                | None => [SUncaught JSONDecodeError]
                | Some j =>
                    match dict_get j "upload_url" with
                    | Err e => [SUncaught e]
                    | Ok upload_url =>
                        SPrint (Say_upload_url upload_url) ::
                        show_image_bytes b64decode (item j "qr_base64") fs
                    end
                end
              else []
          end
      end
  end.

(** What [with open(path, "w") as f: json.dump(data, f)] meets: [open]
    raises and the file is not touched; [open] has emptied the file and the
    dump does not complete; or the document is written. *)
Inductive write_outcome : Type :=
| OpenRaises (e : exn)
| WriteRaises (e : exn)
| Written.

(** [provision_client.py]; [API] and [token] are the two lines read,
    stripped. *)
Definition provision_client (API token : string) (resp : post_outcome) (fs : write_outcome)
  : list script_action :=
  SPost (API ++ "/api/provision/claim") None (JObj [("token", JStr token)]) ::
  match resp with
  | PostRaises e => [SUncaught e]
  | PostResponse status text body =>
      SPrint (Say_status status text) ::
      if response_ok status then
        match body with
        | None => [SUncaught JSONDecodeError]
        | Some data =>
            match fs with
            | OpenRaises e => [SUncaught e]
            | WriteRaises e => [STruncate "device_credentials.json"; SUncaught e]
            | Written =>
                [SWrite "device_credentials.json" (JsonDoc data); SPrint Say_saved_credentials]
            end
        end
      else []
  end.

(** The credentials file on disk: as it was found, or emptied by an
    [open(..., "w")] whose dump did not complete. *)
Inductive disk : Type :=
| Intact (file : cred_file)
| Clobbered.

(** The credentials file after a script has run. *)
Fixpoint credentials_after (before : disk) (acts : list script_action) : disk :=
  match acts with
  | [] => before
  | SWrite path (JsonDoc data) :: rest =>
      if path =? "device_credentials.json"
      then credentials_after (Intact (Document data)) rest
      else credentials_after before rest
  | STruncate path :: rest =>
      if path =? "device_credentials.json"
      then credentials_after Clobbered rest
      else credentials_after before rest
  | _ :: rest => credentials_after before rest
  end.

(** [open] returned. *)
Definition opened (fs : write_outcome) : bool :=
  match fs with OpenRaises _ => false | _ => true end.

Fixpoint script_writes (acts : list script_action) : list (string * file_content) :=
  match acts with
  | [] => []
  | SWrite path content :: rest => (path, content) :: script_writes rest
  | _ :: rest => script_writes rest
  end.

(** *** More vocabulary for runs of the GUI *)

(** The connected flag after the callbacks of a run. *)
Fixpoint flag_after (flag : bool) (evs : list (Z * event)) : bool :=
  match evs with
  | [] => flag
  | (_, MqttConnect _) :: rest => flag_after true rest
  | (_, MqttDisconnect _) :: rest => flag_after false rest
  | _ :: rest => flag_after flag rest
  end.

Definition is_loop_connect_ok (e : Z * event) : bool :=
  match snd e with LoopConnect None => true | _ => false end.

(** How far a job thread has got. *)
Definition progress (t : thread) : nat :=
  match t with Spawned _ => 0 | Saved _ => 1 | Finished => 2 end.

Definition is_live (t : thread) : bool :=
  match t with Finished => false | _ => true end.

(** Threads that may still publish. *)
Definition live (st : gui) : nat := length (filter is_live (threads st)).



Definition is_emit_qr (a : action) : bool :=
  match a with EmitQr _ => true | _ => false end.

(** [PRINT_SERVICE_API] set to another value. *)
Definition with_api (api : string) (w : world) : world :=
  mkWorld (json_loads w) (py_repr w) api (tempdir w) (mqtt_available w)
          (IS_WINDOWS w) (IS_LINUX w) (win32print w) (cups w)
          (utf8_decode w) (bytes_str w) (ntpath_join w).

Fixpoint slashes (n : nat) : string :=
  match n with
  | O => EmptyString
  | S m => String "/" (slashes m)
  end.

(** A credentials document the GUI can start from: a dict whose
    [client_secret] and [device_uuid] are both truthy. *)
Definition usable_credentials (file : cred_file) : bool :=
  match file with
  | Document (JObj kvs) =>
      truthy (item (JObj kvs) "client_secret") && truthy (item (JObj kvs) "device_uuid")
  | _ => false
  end.

(** An inbound message the callback handles without starting a job and
    without raising: not JSON, or a dict with another [command]. *)
Definition is_noise (w : world) (e : Z * event) : bool :=
  match snd e with
  | MqttMessage _ payload =>
      match json_loads w payload with
      | None => true
      | Some (JObj kvs) => negb (eq_str (item (JObj kvs) "command") "print")
      | Some _ => false
      end
  | _ => false
  end.

Definition is_script_uncaught (a : script_action) : bool :=
  match a with SUncaught _ => true | _ => false end.

(** An answer that is [r.ok] and whose body parsed. *)
Definition is_ok_json (resp : post_outcome) : bool :=
  match resp with
  | PostResponse status _ (Some _) => response_ok status
  | _ => false
  end.

(** The body of an answer carries no string under [qr_base64]. *)
Definition lacks_qr_base64 (resp : post_outcome) : bool :=
  match resp with
  | PostResponse _ _ (Some j) => negb (is_str (item j "qr_base64"))
  | _ => true
  end.

(** * Properties *)

Arguments commands_topic : simpl never.
Arguments logs_topic : simpl never.
Arguments api_base : simpl never.
Arguments tmp_path : simpl never.
Arguments job_id_of : simpl never.

(** Case analysis on whatever the goal still branches on. *)
Ltac break_match :=
  match goal with
  | |- context [match ?x with _ => _ end] => destruct x eqn:?
  end.

Ltac by_cases := repeat break_match; try reflexivity.

(** ** Lists *)

Lemma nth_error_set_nth {A : Type} (l : list A) (n : nat) (x y : A) :
  nth_error l n = Some x -> nth_error (set_nth n y l) n = Some y.
Proof.
  revert n; induction l as [|a l IH]; intros [|n] H; simpl in *;
    try discriminate; auto.
Qed.

Lemma length_set_nth {A : Type} (l : list A) (n : nat) (y : A) :
  length (set_nth n y l) = length l.
Proof.
  revert n; induction l as [|a l IH]; intros [|n]; simpl; auto.
Qed.

Lemma started_app (a b : list action) : started (a ++ b) = started a ++ started b.
Proof.
  induction a as [|x a IH]; simpl; auto.
  destruct x; simpl; rewrite ?IH; reflexivity.
Qed.

Lemma sleeps_app (a b : list action) : sleeps (a ++ b) = sleeps a ++ sleeps b.
Proof.
  induction a as [|x a IH]; simpl; auto.
  destruct x; simpl; rewrite ?IH; reflexivity.
Qed.

Lemma publishes_app (a b : list action) :
  publishes (a ++ b) = publishes a ++ publishes b.
Proof. apply filter_app. Qed.

Lemma string_append_assoc (a b c : string) :
  ((a ++ b) ++ c)%string = (a ++ b ++ c)%string.
Proof. induction a as [|x a IH]; simpl; [reflexivity|rewrite IH; reflexivity]. Qed.

Lemma is_subscribe_to_same (t : string) : is_subscribe_to t (Subscribe t 1) = true.
Proof. simpl. rewrite String.eqb_refl. reflexivity. Qed.

(** ** Runs *)

Section Runs.

Variable w : world.

Lemma trace_cons st now ev rest :
  trace w st ((now, ev) :: rest)
  = snd (step w st now ev) ++ trace w (fst (step w st now ev)) rest.
Proof. reflexivity. Qed.

Lemma final_app st a b : final w st (a ++ b) = final w (final w st a) b.
Proof.
  revert st; induction a as [|[now ev] a IH]; intros st; simpl; auto.
Qed.

Lemma trace_app st a b :
  trace w st (a ++ b) = trace w st a ++ trace w (final w st a) b.
Proof.
  revert st; induction a as [|[now ev] a IH]; intros st.
  - reflexivity.
  - simpl app. rewrite !trace_cons, IH. simpl final. apply app_assoc.
Qed.

(** No event touches the device identity. *)
Lemma step_device_uuid st now ev :
  device_uuid (fst (step w st now ev)) = device_uuid st.
Proof.
  destruct ev; simpl; try reflexivity.
  - unfold _on_mqtt_message.
    destruct (json_loads w payload) as [job|]; [|reflexivity].
    destruct (dict_get job "command") as [c|e]; [|reflexivity].
    destruct (eq_str c "print"); reflexivity.
  - unfold loop_connect. destruct (mqtt_available w); [|reflexivity].
    destruct r; reflexivity.
  - destruct r; reflexivity.
  - destruct (nth_error (threads st) tid) as [[job|id|]|]; reflexivity.
  - destruct (nth_error (threads st) tid) as [[job|id|]|]; reflexivity.
  - unfold request_session_qr.
    destruct (truthy (client_secret st)); [|reflexivity]. simpl negb. cbv iota.
    destruct resp as [e|status text body]; [reflexivity|].
    destruct (negb (status =? 200)%Z); [reflexivity|].
    destruct body as [[| | | | |kvs]|]; try reflexivity.
    match goal with |- context [upload_url_or_synth ?a ?b ?c] =>
      destruct (upload_url_or_synth a b c) end; reflexivity.
Qed.

(** *** Subscription on connect *)

Lemma gui_audit st evs p :
  p <> Unsubscribed ->
  resubscribe_audit (commands_topic (device_uuid st)) p
    (map gui_label (history w st evs)) = true.
Proof.
  revert st p; induction evs as [|[now ev] evs IH]; intros st p Hp.
  - reflexivity.
  - cbn [history map].
    pose proof (step_device_uuid st now ev) as Hid.
    specialize (IH (fst (step w st now ev))). rewrite Hid in IH.
    destruct ev; cbn [gui_label fst snd resubscribe_audit];
      try (apply IH; assumption); try (apply IH; discriminate).
    + (* connect callback *)
      replace (existsb _ _) with true; [apply IH; discriminate|].
      cbn [step snd _on_mqtt_connect existsb].
      rewrite is_subscribe_to_same. destruct (is_subscribe_to _ _); reflexivity.
    + destruct p; try (apply IH; discriminate). contradiction.
Qed.

Lemma client_audit uuid evs p :
  p <> Unsubscribed ->
  resubscribe_audit (commands_topic uuid) p
    (map client_label (client_run w uuid evs)) = true.
Proof.
  revert p; induction evs as [|ev evs IH]; intros p Hp.
  - reflexivity.
  - cbn [client_run map].
    assert (Hrest : forall q, q <> Unsubscribed ->
              resubscribe_audit (commands_topic uuid) q
                (map client_label
                   (if existsb is_uncaught (client_step w uuid ev) then []
                    else client_run w uuid evs)) = true).
    { intros q Hq. destruct (existsb is_uncaught _); [reflexivity|apply IH; exact Hq]. }
    destruct ev; cbn [client_label fst snd resubscribe_audit].
    + replace (existsb (is_subscribe_to _) _) with true; [apply Hrest; discriminate|].
      cbn [client_step on_connect existsb]. rewrite is_subscribe_to_same.
      reflexivity.
    + destruct p; try (apply Hrest; discriminate). contradiction.
Qed.

End Runs.

(** C1. Every run of the connect callback marks the client connected and
    issues the subscription to [devices/{id}/commands] at QoS 1 in that same
    callback, whatever [rc] is; hence in every history of either client no
    inbound message is handled in a connection period that opened without
    the subscription to that channel. *)
Theorem resubscribe_on_every_connect (w : world) :
  (forall st rc,
      mqtt_connected (fst (_on_mqtt_connect st rc)) = true
      /\ In (Subscribe ("devices/" ++ device_uuid st ++ "/commands") 1)
            (snd (_on_mqtt_connect st rc))
      /\ started (snd (_on_mqtt_connect st rc)) = [])
  /\ (forall st evs,
      resubscribe_audit ("devices/" ++ device_uuid st ++ "/commands") NotConnected
        (map gui_label (history w st evs)) = true)
  /\ (forall uuid rc,
      In (Subscribe ("devices/" ++ uuid ++ "/commands") 1) (on_connect uuid rc))
  /\ (forall uuid evs,
      resubscribe_audit ("devices/" ++ uuid ++ "/commands") NotConnected
        (map client_label (client_run w uuid evs)) = true).
Proof.
  repeat split.
  - right; left; reflexivity.
  - intros st evs.
    change ("devices/" ++ device_uuid st ++ "/commands")%string
      with (commands_topic (device_uuid st)).
    apply gui_audit. discriminate.
  - intros uuid rc. right; left; reflexivity.
  - intros uuid evs.
    change ("devices/" ++ uuid ++ "/commands")%string with (commands_topic uuid).
    apply client_audit. discriminate.
Qed.

(** ** Dispatch of inbound messages *)

Section Dispatch.

Variable w : world.

Lemma on_mqtt_message_print st topic payload job :
  json_loads w payload = Some job ->
  is_print_command w payload = true ->
  _on_mqtt_message w st topic payload
  = (set_threads (threads st ++ [Spawned job]) st,
     [Log (L_msg topic (shown_payload w payload)); StartThread job]).
Proof.
  unfold is_print_command, _on_mqtt_message. intros -> Hp.
  destruct job; try discriminate.
  cbn [dict_get]. rewrite Hp. reflexivity.
Qed.

Lemma on_mqtt_message_other st topic payload :
  is_print_command w payload = false ->
  fst (_on_mqtt_message w st topic payload) = st
  /\ started (snd (_on_mqtt_message w st topic payload)) = []
  /\ publishes (snd (_on_mqtt_message w st topic payload)) = [].
Proof.
  unfold is_print_command, _on_mqtt_message. intros Hp.
  destruct (json_loads w payload) as [job|]; [|repeat split].
  destruct job; cbn [dict_get]; try (repeat split; fail).
  rewrite Hp. repeat split.
Qed.

Lemma on_mqtt_message_logged st topic payload :
  In (Log (L_msg topic (shown_payload w payload)))
     (snd (_on_mqtt_message w st topic payload)).
Proof.
  unfold _on_mqtt_message. repeat break_match; left; reflexivity.
Qed.

Lemma on_message_other uuid topic payload dl fs :
  is_print_command w payload = false ->
  filter (fun a => is_http_get a || is_publish a) (on_message w uuid topic payload dl fs)
  = [].
Proof.
  unfold is_print_command, on_message. intros Hp.
  destruct (json_loads w payload) as [job|]; [|reflexivity].
  destruct job; cbn [dict_get]; try reflexivity.
  rewrite Hp. reflexivity.
Qed.

Lemma on_message_print uuid topic payload dl fs job :
  json_loads w payload = Some job ->
  is_print_command w payload = true ->
  In (HttpGet (item job "url") None) (on_message w uuid topic payload dl fs).
Proof.
  unfold is_print_command, on_message. intros -> Hp.
  destruct job; try discriminate.
  cbn [dict_get]. rewrite Hp. right; right; left; reflexivity.
Qed.

End Dispatch.

(** C6 (as the code has it). The GUI client logs the first 400
    characters of the text of every inbound message and publishes no reply
    from the message callback; the bare client prints the payload and
    publishes nothing for a message that is not a print command.  A
    payload that does not parse is logged as such and starts nothing (GUI)
    or ends the callback with the decoding error (bare client); a payload
    that is not a dict with [command == "print"] starts nothing.  A dict
    with [command == "print"] is always handed to a new job thread (GUI)
    or downloaded at once (bare client): [job_id] and [url] are not
    looked at. *)
Theorem dispatch_on_command_field_only (w : world) :
  (forall st topic payload,
      let r := _on_mqtt_message w st topic payload in
      publishes (snd r) = []
      /\ In (Log (L_msg topic
                   (firstn 400
                      match utf8_decode w payload with
                      | Some decoded => decoded
                      | None => bytes_str w payload
                      end))) (snd r)
      /\ match json_loads w payload with
         | None =>
             fst r = st /\ started (snd r) = [] /\ In (Log L_parse_failed) (snd r)
         | Some job =>
             if is_print_command w payload
             then fst r = set_threads (threads st ++ [Spawned job]) st
                  /\ started (snd r) = [job]
             else fst r = st /\ started (snd r) = []
         end)
  /\ (forall uuid topic payload dl fs,
      In (Log (P_msg topic payload)) (on_message w uuid topic payload dl fs)
      /\ match json_loads w payload with
         | None =>
             on_message w uuid topic payload dl fs
             = [Log (P_msg topic payload); Uncaught JSONDecodeError]
         | Some job =>
             if is_print_command w payload
             then In (HttpGet (item job "url") None) (on_message w uuid topic payload dl fs)
             else filter (fun a => is_http_get a || is_publish a)
                    (on_message w uuid topic payload dl fs) = []
         end).
Proof.
  split.
  - intros st topic payload r. subst r.
    change (firstn 400
              match utf8_decode w payload with
              | Some decoded => decoded
              | None => bytes_str w payload
              end) with (shown_payload w payload).
    destruct (is_print_command w payload) eqn:Hp.
    + destruct (json_loads w payload) as [job|] eqn:Hj.
      * rewrite (on_mqtt_message_print w st topic payload job Hj Hp).
        cbn [fst snd publishes filter is_publish started].
        repeat split. left; reflexivity.
      * unfold is_print_command in Hp. rewrite Hj in Hp. discriminate.
    + destruct (on_mqtt_message_other w st topic payload Hp) as (Hst & Hs & Hpub).
      split; [exact Hpub|]. split; [apply on_mqtt_message_logged|].
      destruct (json_loads w payload) as [job|] eqn:Hj.
      * split; assumption.
      * repeat split; try assumption.
        unfold _on_mqtt_message. rewrite Hj. right; left; reflexivity.
  - intros uuid topic payload dl fs.
    split; [unfold on_message; left; reflexivity|].
    destruct (json_loads w payload) as [job|] eqn:Hj.
    + destruct (is_print_command w payload) eqn:Hp.
      * apply on_message_print; assumption.
      * apply on_message_other; assumption.
    + unfold on_message. rewrite Hj. reflexivity.
Qed.

(** C6, counterexample: a print command whose [job_id] is empty and
    whose [url] is the relative name [doc.pdf] is handed to execution. *)
Lemma print_with_empty_job_id_is_executed :
  demo_loads (dumps_flat cmd_no_id) = Some (obj_of cmd_no_id)
  /\ truthy (item (obj_of cmd_no_id) "job_id") = false
  /\ item (obj_of cmd_no_id) "url" = JStr "doc.pdf"
  /\ started (snd (_on_mqtt_message demo gui0 topic1 (dumps_flat cmd_no_id)))
     = [obj_of cmd_no_id]
  /\ threads (fst (_on_mqtt_message demo gui0 topic1 (dumps_flat cmd_no_id)))
     = [Spawned (obj_of cmd_no_id)]
  /\ In (HttpGet (JStr "doc.pdf") None)
       (on_message demo "dev1" topic1 (dumps_flat cmd_no_id) (HttpRaises (OtherError "")) None).
Proof. vm_compute. repeat split. tauto. Qed.

(** ** Job threads *)

Section Jobs.

Variable w : world.

Lemma started_print_locally pr tmpfd job_id :
  started (print_locally w pr tmpfd job_id) = [].
Proof. unfold print_locally. by_cases. Qed.

Lemma publishes_print_locally pr tmpfd job_id :
  publishes (print_locally w pr tmpfd job_id) = [].
Proof. unfold print_locally. by_cases. Qed.

Lemma sleeps_print_locally pr tmpfd job_id :
  sleeps (print_locally w pr tmpfd job_id) = [].
Proof. unfold print_locally. by_cases. Qed.

Lemma http_gets_print_locally pr tmpfd job_id :
  filter is_http_get (print_locally w pr tmpfd job_id) = [].
Proof. unfold print_locally. by_cases. Qed.

Lemma started_fetch now job dl fs pr :
  started (snd (_handle_print_job_fetch w now job dl fs pr)) = [].
Proof.
  unfold _handle_print_job_fetch.
  by_cases; cbn [snd]; rewrite !started_app, started_print_locally; reflexivity.
Qed.

Lemma publishes_fetch now job dl fs pr :
  publishes (snd (_handle_print_job_fetch w now job dl fs pr)) = [].
Proof.
  unfold _handle_print_job_fetch.
  by_cases; cbn [snd]; rewrite !publishes_app, publishes_print_locally; reflexivity.
Qed.

Lemma sleeps_fetch now job dl fs pr :
  sleeps (snd (_handle_print_job_fetch w now job dl fs pr)) = [].
Proof.
  unfold _handle_print_job_fetch.
  by_cases; cbn [snd]; rewrite !sleeps_app, sleeps_print_locally; reflexivity.
Qed.

Lemma started_ack st now job_id pub :
  started (_handle_print_job_ack st now job_id pub) = [].
Proof. unfold _handle_print_job_ack. by_cases. Qed.

Lemma sleeps_ack st now job_id pub :
  sleeps (_handle_print_job_ack st now job_id pub) = [].
Proof. unfold _handle_print_job_ack. by_cases. Qed.

Lemma started_request st lifetime resp qr :
  started (snd (request_session_qr w st lifetime resp qr)) = [].
Proof. unfold request_session_qr, show_qr. by_cases. Qed.

Lemma publishes_request st lifetime resp qr :
  publishes (snd (request_session_qr w st lifetime resp qr)) = [].
Proof. unfold request_session_qr, show_qr. by_cases. Qed.

Lemma sleeps_request st lifetime resp qr :
  sleeps (snd (request_session_qr w st lifetime resp qr)) = [].
Proof. unfold request_session_qr, show_qr. by_cases. Qed.

(** Only a print command starts a thread, and it starts exactly one. *)
Lemma step_started st now ev :
  length (started (snd (step w st now ev)))
  = if is_print_event w (now, ev) then 1 else 0.
Proof.
  destruct ev; cbn [step is_print_event snd]; try reflexivity.
  - destruct (is_print_command w payload) eqn:Hp.
    + destruct (json_loads w payload) as [job|] eqn:Hj.
      * rewrite (on_mqtt_message_print w st topic payload job Hj Hp). reflexivity.
      * unfold is_print_command in Hp. rewrite Hj in Hp. discriminate.
    + destruct (on_mqtt_message_other w st topic payload Hp) as (_ & -> & _).
      reflexivity.
  - unfold loop_connect. by_cases.
  - destruct r; reflexivity.
  - destruct (nth_error (threads st) tid) as [[job|id|]|]; try reflexivity.
    cbn [snd]. rewrite started_fetch. reflexivity.
  - destruct (nth_error (threads st) tid) as [[job|id|]|]; try reflexivity.
    cbn [snd]. rewrite started_ack. reflexivity.
  - rewrite started_request. reflexivity.
  - unfold copy_upload_url. by_cases.
Qed.

Lemma step_threads_length st now ev :
  length (threads (fst (step w st now ev)))
  = length (threads st) + (if is_print_event w (now, ev) then 1 else 0).
Proof.
  destruct ev; cbn [step is_print_event snd fst]; try (cbn; lia).
  - destruct (is_print_command w payload) eqn:Hp.
    + destruct (json_loads w payload) as [job|] eqn:Hj.
      * rewrite (on_mqtt_message_print w st topic payload job Hj Hp).
        cbn [fst set_threads threads]. rewrite length_app. reflexivity.
      * unfold is_print_command in Hp. rewrite Hj in Hp. discriminate.
    + destruct (on_mqtt_message_other w st topic payload Hp) as (-> & _). lia.
  - unfold loop_connect. by_cases; cbn; lia.
  - destruct r; cbn; lia.
  - destruct (nth_error (threads st) tid) as [[job|id|]|]; cbn [fst]; try lia.
    cbn [set_threads threads]. rewrite length_set_nth. lia.
  - destruct (nth_error (threads st) tid) as [[job|id|]|]; cbn [fst]; try lia.
    cbn [set_threads threads]. rewrite length_set_nth. lia.
  - unfold request_session_qr. by_cases; cbn; lia.
Qed.

Lemma run_started st evs :
  length (started (trace w st evs)) = length (filter (is_print_event w) evs).
Proof.
  revert st; induction evs as [|[now ev] evs IH]; intros st.
  - reflexivity.
  - rewrite trace_cons, started_app, length_app, step_started, IH.
    cbn [filter]. destruct (is_print_event w (now, ev)); reflexivity.
Qed.

Lemma run_threads_length st evs :
  length (threads (final w st evs))
  = length (threads st) + length (filter (is_print_event w) evs).
Proof.
  revert st; induction evs as [|[now ev] evs IH]; intros st.
  - cbn. lia.
  - cbn [final filter]. rewrite IH, step_threads_length.
    destruct (is_print_event w (now, ev)); cbn [length]; lia.
Qed.

(** The same print command received [n] times in a row leaves [n] more
    executions in flight for its job id. *)
Lemma repeated_command_in_flight st now topic payload job id n :
  json_loads w payload = Some job ->
  is_print_command w payload = true ->
  eq_str (item job "job_id") id = true ->
  in_flight id (final w st (repeat (now, MqttMessage topic payload) n))
  = in_flight id st + n.
Proof.
  intros Hj Hp Hid. revert st; induction n as [|n IH]; intros st.
  - cbn. lia.
  - cbn [repeat final step]. rewrite IH.
    rewrite (on_mqtt_message_print w st topic payload job Hj Hp).
    unfold in_flight. cbn [fst set_threads threads].
    rewrite filter_app, length_app. cbn [filter works_on]. rewrite Hid.
    cbn [length]. lia.
Qed.

End Jobs.

(** C2 (as the code has it). Nothing is de-duplicated by job id: every
    print command received starts one execution of its own, so the number
    of executions started equals the number of print commands received;
    the same command received [n] times while the earlier ones have not run
    leaves [n] more executions in flight for that job id; and what an
    execution publishes does not depend on the other threads. *)
Theorem no_deduplication_by_job_id (w : world) :
  (forall st evs,
      length (started (trace w st evs)) = length (filter (is_print_event w) evs)
      /\ length (threads (final w st evs))
         = length (threads st) + length (filter (is_print_event w) evs))
  /\ (forall st now topic payload job id n,
      json_loads w payload = Some job ->
      is_print_command w payload = true ->
      eq_str (item job "job_id") id = true ->
      in_flight id (final w st (repeat (now, MqttMessage topic payload) n))
      = in_flight id st + n)
  /\ (forall st ts now job_id pub,
      _handle_print_job_ack (set_threads ts st) now job_id pub
      = _handle_print_job_ack st now job_id pub).
Proof.
  split; [|split].
  - intros st evs. split; [apply run_started|apply run_threads_length].
  - intros. eapply repeated_command_in_flight; eassumption.
  - reflexivity.
Qed.

Lemma no_deduplication_by_job_id_witness :
  json_loads demo (dumps_flat cmd_j1) = Some (obj_of cmd_j1)
  /\ is_print_command demo (dumps_flat cmd_j1) = true
  /\ eq_str (item (obj_of cmd_j1) "job_id") "j1" = true
  /\ in_flight "j1" (final demo gui0 (repeat (0%Z, MqttMessage topic1 (dumps_flat cmd_j1)) 3))
     = in_flight "j1" gui0 + 3.
Proof.
  split; [reflexivity|]. split; [reflexivity|]. split; [reflexivity|].
  apply (proj1 (proj2 (no_deduplication_by_job_id demo)) gui0 0%Z topic1
           (dumps_flat cmd_j1) (obj_of cmd_j1) "j1" 3); reflexivity.
Defined.

(** C2, counterexample: the same print command for job [j1] received
    twice gives two executions in flight at once and, once both have
    run, two status messages (GUI); the bare client downloads and
    publishes twice as well. *)
Lemma same_job_id_runs_twice :
  let cmd := dumps_flat cmd_j1 in
  let arrive := [(0, LoopConnect None); (1, MqttConnect 0);
                 (2, MqttMessage topic1 cmd); (3, MqttMessage topic1 cmd)]%Z in
  let work := [(4, JobFetch 0 (HttpResponse 200 "PDF") None cups_ok);
               (5, JobFetch 1 (HttpResponse 200 "PDF") None cups_ok);
               (6, JobAck 0 None); (7, JobAck 1 None)]%Z in
  in_flight "j1" (final demo gui0 arrive) = 2
  /\ length (started (trace demo gui0 arrive)) = 2
  /\ length (publishes (trace demo gui0 (arrive ++ work))) = 2
  /\ length (publishes (concat (map snd
        (client_run demo "dev1"
           [CConnect 0;
            CMessage topic1 cmd (HttpResponse 200 "PDF") None;
            CMessage topic1 cmd (HttpResponse 200 "PDF") None])))) = 2.
Proof. vm_compute. repeat split. Qed.

(** ** Status reports *)

Section Reports.

Variable w : world.

Lemma handle_print_job_publishes st t0 t1 job dl fs pr pub :
  publishes (_handle_print_job w st t0 t1 job dl fs pr pub)
  = if download_ok dl && no_exn fs && (mqtt_client st && mqtt_connected st) && no_exn pub
    then [completed_msg st (job_id_of t0 job) t1]
    else [].
Proof.
  unfold _handle_print_job.
  pose proof (publishes_fetch w t0 job dl fs pr) as Hf.
  unfold _handle_print_job_fetch, download_ok in *.
  destruct dl as [e|status content]; [reflexivity|].
  destruct (raise_for_status status); [reflexivity|].
  destruct fs as [e|]; [reflexivity|].
  cbn [snd fst] in *. rewrite publishes_app, Hf.
  unfold _handle_print_job_ack, completed_msg.
  destruct (mqtt_client st && mqtt_connected st); [|reflexivity].
  destruct pub; reflexivity.
Qed.

Lemma on_message_publishes uuid topic payload dl fs :
  publishes (on_message w uuid topic payload dl fs)
  = match json_loads w payload with
    | Some job =>
        if is_print_command w payload && http_returned dl
           && is_str (item job "job_id") && no_exn fs
        then [Publish (logs_topic uuid)
                (JObj [("job_id", item job "job_id"); ("status", JStr "completed")]) 1]
        else []
    | None => []
    end.
Proof.
  unfold on_message, is_print_command.
  destruct (json_loads w payload) as [job|]; [|reflexivity].
  destruct job; try reflexivity. cbn [dict_get].
  destruct (eq_str _ "print"); [|reflexivity].
  destruct dl as [e|status content]; [reflexivity|].
  destruct (item (JObj kvs) "job_id"); try reflexivity.
  destruct fs; reflexivity.
Qed.

(** A thread that is over does nothing more. *)
Lemma finished_thread_is_silent st now tid ev :
  nth_error (threads st) tid = Some Finished ->
  is_job_event_of tid (now, ev) = true ->
  step w st now ev = (st, []).
Proof.
  intros Hf He. destruct ev; try discriminate; cbn in He;
    apply Nat.eqb_eq in He; subst tid0; cbn [step]; rewrite Hf; reflexivity.
Qed.

Lemma connection_event_step st now ev :
  is_connection_event (now, ev) = true ->
  threads (fst (step w st now ev)) = threads st
  /\ publishes (snd (step w st now ev)) = [].
Proof.
  destruct ev; try discriminate; intros _; cbn [step].
  - split; reflexivity.
  - split; reflexivity.
  - unfold loop_connect. by_cases; split; reflexivity.
  - destruct r; split; reflexivity.
Qed.

Lemma silent_after_finished tid evs :
  forall st,
    nth_error (threads st) tid = Some Finished ->
    forallb (fun e => is_connection_event e || is_job_event_of tid e) evs = true ->
    publishes (trace w st evs) = [].
Proof.
  induction evs as [|[now ev] evs IH]; intros st Hf Hall.
  - reflexivity.
  - cbn [forallb] in Hall. apply andb_true_iff in Hall as [Hev Hall].
    rewrite trace_cons, publishes_app.
    apply orb_true_iff in Hev as [Hc|Hj].
    + destruct (connection_event_step st now ev Hc) as [Hth Hp].
      rewrite Hp. apply IH; [rewrite Hth; exact Hf|exact Hall].
    + rewrite (finished_thread_is_silent st now tid ev Hf Hj).
      apply IH; assumption.
Qed.

End Reports.

(** C3 (as the code has it). A job publishes at most one status message
    and its status is always ["completed"].  In the GUI client it is
    published exactly when the download returned without an HTTP error
    status, the file was saved, and the object has a client and is marked
    connected when the publish block runs (and [publish] does not raise),
    whatever the printing block did.  In the bare client it is published
    exactly when the download returned a response of any status, [job_id]
    is a string and the file was written.  A failed download or save
    publishes nothing. *)
Theorem status_is_completed_or_absent (w : world) :
  (forall st t0 t1 job dl fs pr pub,
      publishes (_handle_print_job w st t0 t1 job dl fs pr pub)
      = if download_ok dl && no_exn fs && (mqtt_client st && mqtt_connected st)
           && no_exn pub
        then [completed_msg st (job_id_of t0 job) t1]
        else [])
  /\ (forall uuid topic payload dl fs,
      publishes (on_message w uuid topic payload dl fs)
      = match json_loads w payload with
        | Some job =>
            if is_print_command w payload && http_returned dl
               && is_str (item job "job_id") && no_exn fs
            then [Publish (logs_topic uuid)
                    (JObj [("job_id", item job "job_id"); ("status", JStr "completed")]) 1]
            else []
        | None => []
        end).
Proof.
  split.
  - apply handle_print_job_publishes.
  - apply on_message_publishes.
Qed.

(** C3, counterexample: a valid print command received once while
    connected whose download answers 404 ends with no status message at
    all; and one whose printing fails is still reported ["completed"]. *)
Lemma failed_job_is_not_reported :
  let up := [(0, LoopConnect None); (1, MqttConnect 0);
             (2, MqttMessage topic1 (dumps_flat cmd_j1))]%Z in
  let not_found := [(3, JobFetch 0 (HttpResponse 404 "") None cups_ok);
                    (4, JobAck 0 None)]%Z in
  let unprinted := [(3, JobFetch 0 (HttpResponse 200 "PDF") None cups_down);
                    (4, JobAck 0 None)]%Z in
  publishes (trace demo gui0 (up ++ not_found)) = []
  /\ threads (final demo gui0 (up ++ not_found)) = [Finished]
  /\ In (Log (L_cups_error (OtherError "cups"))) (trace demo gui0 (up ++ unprinted))
  /\ map status_of (publishes (trace demo gui0 (up ++ unprinted))) = [JStr "completed"].
Proof. vm_compute. repeat split. tauto. Qed.

(** ** Download failures *)

Section Downloads.

Variable w : world.

Lemma fetch_once now job dl fs pr :
  length (filter is_http_get (snd (_handle_print_job_fetch w now job dl fs pr))) = 1.
Proof.
  unfold _handle_print_job_fetch.
  by_cases; cbn [snd]; rewrite !filter_app, http_gets_print_locally; reflexivity.
Qed.

Lemma fetch_failed now job dl fs pr :
  download_ok dl = false ->
  exists e,
    _handle_print_job_fetch w now job dl fs pr
    = (None, [Log (L_start (job_id_of now job) (item job "url"));
              HttpGet (item job "url") (Some 15%Z);
              Log (L_download_failed e)]).
Proof.
  unfold download_ok, _handle_print_job_fetch. intros Hd.
  destruct dl as [e|status content].
  - exists e. reflexivity.
  - destruct (raise_for_status status) as [e|]; [|discriminate].
    exists e. reflexivity.
Qed.

Lemma failed_fetch_finishes st now tid job dl fs pr :
  nth_error (threads st) tid = Some (Spawned job) ->
  download_ok dl = false ->
  nth_error (threads (fst (step w st now (JobFetch tid dl fs pr)))) tid
  = Some Finished.
Proof.
  intros Hs Hd. cbn [step]. rewrite Hs.
  destruct (fetch_failed now job dl fs pr Hd) as [e ->].
  cbn [fst set_threads threads]. eapply nth_error_set_nth; eassumption.
Qed.

End Downloads.

(** C4 (as the code has it). A job makes exactly one download attempt,
    with no retry and no attempts counter.  When that attempt raises or
    answers an HTTP error status, the job logs the failure locally and
    returns: its thread is over, nothing is published for it then or
    later, so it is never reported completed. *)
Theorem download_attempted_once (w : world) :
  forall st now tid job dl fs pr,
    nth_error (threads st) tid = Some (Spawned job) ->
    download_ok dl = false ->
    let r := step w st now (JobFetch tid dl fs pr) in
    length (filter is_http_get (snd r)) = 1
    /\ (exists e, snd r = [Log (L_start (job_id_of now job) (item job "url"));
                           HttpGet (item job "url") (Some 15%Z);
                           Log (L_download_failed e)])
    /\ nth_error (threads (fst r)) tid = Some Finished
    /\ (forall evs,
           forallb (fun e => is_connection_event e || is_job_event_of tid e) evs = true ->
           publishes (trace w (fst r) evs) = []).
Proof.
  intros st now tid job dl fs pr Hs Hd r.
  pose proof (failed_fetch_finishes w st now tid job dl fs pr Hs Hd) as Hfin.
  subst r. cbn [step] in *. rewrite Hs in *. cbn [snd].
  split; [apply fetch_once|].
  split.
  - destruct (fetch_failed w now job dl fs pr Hd) as [e ->]. exists e. reflexivity.
  - split; [exact Hfin|].
    intros evs Hevs. eapply silent_after_finished; eassumption.
Qed.

Lemma download_attempted_once_witness :
  let st := fst (step demo gui0 0%Z (MqttMessage topic1 (dumps_flat cmd_j1))) in
  let r := step demo st 1%Z (JobFetch 0 (HttpRaises (RequestException "refused")) None cups_ok) in
  nth_error (threads st) 0 = Some (Spawned (obj_of cmd_j1))
  /\ length (filter is_http_get (snd r)) = 1
  /\ nth_error (threads (fst r)) 0 = Some Finished.
Proof.
  intros st r. split; [reflexivity|].
  pose proof (download_attempted_once demo st 1%Z 0 (obj_of cmd_j1)
                (HttpRaises (RequestException "refused")) None cups_ok
                eq_refl eq_refl) as H.
  split; [exact (proj1 H)|exact (proj1 (proj2 (proj2 H)))].
Defined.

(** C4, counterexample: for a url whose fetch always raises, the whole
    life of the job holds one download attempt, not one per unit of a
    retry budget, and no status message, so no [failed] report. *)
Lemma failing_url_is_fetched_once :
  let evs := [(0, LoopConnect None); (1, MqttConnect 0);
              (2, MqttMessage topic1 (dumps_flat cmd_j1));
              (3, JobFetch 0 (HttpRaises (RequestException "refused")) None cups_ok);
              (4, JobFetch 0 (HttpRaises (RequestException "refused")) None cups_ok);
              (5, JobFetch 0 (HttpRaises (RequestException "refused")) None cups_ok);
              (6, JobAck 0 None)]%Z in
  length (filter is_http_get (trace demo gui0 evs)) = 1
  /\ length (filter is_http_get (trace demo gui0 evs)) <> 3
  /\ publishes (trace demo gui0 evs) = []
  /\ threads (final demo gui0 evs) = [Finished].
Proof. vm_compute. repeat split. discriminate. Qed.

(** C5 (as the code has it). When the publish block runs while the object
    has no client or is not marked connected, the report is dropped:
    nothing is published, the thread is over, and no later connection
    event (connect, disconnect, a turn of the connect loop) nor any further
    step of that thread publishes it. *)
Theorem report_dropped_when_not_connected (w : world) :
  forall st now tid job_id pub,
    nth_error (threads st) tid = Some (Saved job_id) ->
    mqtt_client st && mqtt_connected st = false ->
    let r := step w st now (JobAck tid pub) in
    snd r = []
    /\ nth_error (threads (fst r)) tid = Some Finished
    /\ (forall evs,
           forallb (fun e => is_connection_event e || is_job_event_of tid e) evs = true ->
           publishes (trace w (fst r) evs) = []).
Proof.
  intros st now tid job_id pub Hs Hc r. subst r.
  cbn [step]. rewrite Hs. cbn [fst snd].
  assert (Hfin : nth_error (threads (set_threads (set_nth tid Finished (threads st)) st)) tid
                 = Some Finished).
  { cbn [set_threads threads]. eapply nth_error_set_nth; eassumption. }
  split.
  - unfold _handle_print_job_ack. rewrite Hc. reflexivity.
  - split; [exact Hfin|].
    intros evs Hevs. eapply silent_after_finished; eassumption.
Qed.

Lemma report_dropped_when_not_connected_witness :
  let st := final demo gui0
              [(0, LoopConnect None); (1, MqttConnect 0);
               (2, MqttMessage topic1 (dumps_flat cmd_j1));
               (3, JobFetch 0 (HttpResponse 200 "PDF") None cups_ok);
               (4, MqttDisconnect 0)]%Z in
  nth_error (threads st) 0 = Some (Saved (JStr "j1"))
  /\ mqtt_client st && mqtt_connected st = false
  /\ publishes (trace demo (fst (step demo st 5%Z (JobAck 0 None)))
                  [(6, MqttConnect 0); (7, JobAck 0 None)]%Z) = [].
Proof.
  intros st. split; [reflexivity|]. split; [reflexivity|].
  apply (report_dropped_when_not_connected demo st 5%Z 0 (JStr "j1") None
           eq_refl eq_refl).
  reflexivity.
Defined.

(** C5, counterexample: a job saved while connected whose publish
    block runs after a disconnect publishes nothing, and the reconnect
    that follows publishes nothing either. *)
Lemma report_lost_across_reconnect :
  let evs := [(0, LoopConnect None); (1, MqttConnect 0);
              (2, MqttMessage topic1 (dumps_flat cmd_j1));
              (3, JobFetch 0 (HttpResponse 200 "PDF") None cups_ok);
              (4, MqttDisconnect 0);
              (5, JobAck 0 None);
              (6, MqttConnect 0);
              (7, JobAck 0 None)]%Z in
  In (WriteFile "/tmp/j1.bin" "PDF") (trace demo gui0 evs)
  /\ mqtt_connected (final demo gui0 evs) = true
  /\ threads (final demo gui0 evs) = [Finished]
  /\ publishes (trace demo gui0 evs) = [].
Proof. vm_compute. repeat split. tauto. Qed.

(** ** Reconnect delay *)

Section Reconnect.

Variable w : world.

Lemma step_sleeps st now ev :
  sleeps (snd (step w st now ev))
  = (if mqtt_available w && is_loop_failure (now, ev)
     then [MQTT_RECONNECT_INTERVAL] else [])
  \/ (mqtt_available w = false /\ sleeps (snd (step w st now ev))
      = match ev with LoopForeverEnds (Some _) => [MQTT_RECONNECT_INTERVAL] | _ => [] end).
Proof.
  destruct (mqtt_available w) eqn:Hm; [left|right; split; [reflexivity|]];
    destruct ev; cbn [step snd is_loop_failure andb]; try reflexivity;
    try (unfold _on_mqtt_message; by_cases; fail);
    try (unfold loop_connect; rewrite Hm; cbn [negb]; destruct r; reflexivity);
    try (destruct r; reflexivity);
    try (destruct (nth_error (threads st) tid) as [[job|id|]|]; try reflexivity;
         cbn [snd]; rewrite ?sleeps_fetch, ?sleeps_ack; reflexivity);
    try (rewrite sleeps_request; reflexivity);
    try (unfold copy_upload_url; by_cases).
Qed.

Lemma step_sleeps_constant st now ev :
  Forall (fun d => d = MQTT_RECONNECT_INTERVAL) (sleeps (snd (step w st now ev))).
Proof.
  destruct (step_sleeps st now ev) as [-> | [_ ->]].
  - destruct (mqtt_available w && is_loop_failure (now, ev)); repeat constructor.
  - destruct ev; try constructor. destruct r; repeat constructor.
Qed.

Lemma run_sleeps_constant st evs :
  Forall (fun d => d = MQTT_RECONNECT_INTERVAL) (sleeps (trace w st evs)).
Proof.
  revert st; induction evs as [|[now ev] evs IH]; intros st.
  - constructor.
  - rewrite trace_cons, sleeps_app. apply Forall_app. split.
    + apply step_sleeps_constant.
    + apply IH.
Qed.

Lemma run_sleeps_count st evs :
  mqtt_available w = true ->
  sleeps (trace w st evs)
  = repeat MQTT_RECONNECT_INTERVAL (length (filter is_loop_failure evs)).
Proof.
  intros Hm. revert st; induction evs as [|[now ev] evs IH]; intros st.
  - reflexivity.
  - rewrite trace_cons, sleeps_app, IH. cbn [filter].
    destruct (step_sleeps st now ev) as [-> | [Hf _]]; [|congruence].
    rewrite Hm. cbn [andb].
    destruct (is_loop_failure (now, ev)); reflexivity.
Qed.

End Reconnect.

(** C7 (as the code has it). After a failed connect or a [loop_forever]
    that raised, the connect loop sleeps [MQTT_RECONNECT_INTERVAL] = 5
    seconds before its next turn: every delay of every run is 5 seconds,
    one per failure, whatever the number of failures before it and
    whether or not a connection was confirmed in between. *)
Theorem reconnect_delay_is_constant (w : world) :
  (forall st evs, Forall (fun d => d = 5%Z) (sleeps (trace w st evs)))
  /\ (forall st evs,
      mqtt_available w = true ->
      sleeps (trace w st evs) = repeat 5%Z (length (filter is_loop_failure evs))).
Proof.
  split.
  - intros st evs. apply (run_sleeps_constant w st evs).
  - intros st evs Hm. apply (run_sleeps_count w st evs Hm).
Qed.

Lemma reconnect_delay_is_constant_witness :
  mqtt_available demo = true
  /\ sleeps (trace demo gui0
       [(0, LoopConnect (Some (OSError "refused")));
        (5, LoopConnect None); (6, MqttConnect 0);
        (9, LoopForeverEnds (Some (OSError "reset")))]%Z) = [5; 5]%Z.
Proof.
  split; [reflexivity|].
  apply (proj2 (reconnect_delay_is_constant demo) gui0
           [(0, LoopConnect (Some (OSError "refused")));
            (5, LoopConnect None); (6, MqttConnect 0);
            (9, LoopForeverEnds (Some (OSError "reset")))]%Z).
  reflexivity.
Defined.

(** C7, counterexample: three connect failures in a row are followed
    by delays of 5, 5 and 5 seconds; the second is not twice the first,
    and no base delay below a cap gives these delays by doubling. *)
Lemma reconnect_delay_does_not_grow :
  let evs := [(0, LoopConnect (Some (OSError "refused")));
              (5, LoopConnect (Some (OSError "refused")));
              (10, LoopConnect (Some (OSError "refused")))]%Z in
  sleeps (trace demo gui0 evs) = [5; 5; 5]%Z
  /\ (forall base cap : Z,
         (0 < base < cap)%Z ->
         sleeps (trace demo gui0 evs)
         <> map (spec_backoff_delay base cap) [0; 1; 2]).
Proof.
  split; [reflexivity|].
  intros base cap Hb. vm_compute sleeps.
  unfold spec_backoff_delay. cbn [map Z.of_nat Pos.of_succ_nat Pos.succ Z.pow Z.pow_pos Pos.iter Z.mul Pos.mul].
  intros H. injection H as H0 H1 H2. lia.
Qed.

(** ** Pairing session *)

Section Session.

Variable w : world.

Lemma request_session_qr_200 st lifetime text kvs qr current :
  truthy (client_secret st) = true ->
  upload_url_or_synth w (response_upload_url (JObj kvs)) (response_token (JObj kvs))
  = Ok current ->
  request_session_qr w st lifetime (PostResponse 200 text (Some (JObj kvs))) qr
  = (set_session current (response_token (JObj kvs)) st,
     [Log (L_requesting lifetime (api_base w ++ "/api/device/session"));
      HttpPost (api_base w ++ "/api/device/session") (py_str w (client_secret st))
        (JObj [("lifetime", JNum lifetime)]) 10]
     ++ [Log (L_got_upload_url current)]
     ++ show_qr qr (response_qr (JObj kvs)) current).
Proof.
  intros Hs Hc. unfold request_session_qr.
  rewrite Hs. cbn [negb Z.eqb Pos.eqb].
  unfold response_upload_url, response_token, response_qr in *.
  rewrite Hc. reflexivity.
Qed.

Lemma request_session_qr_keeps st lifetime resp qr :
  is_200_json resp = false ->
  fst (request_session_qr w st lifetime resp qr) = st.
Proof.
  unfold is_200_json, request_session_qr. intros H.
  destruct (truthy (client_secret st)); [|reflexivity]. cbn [negb].
  destruct resp as [e|status text body]; [reflexivity|].
  destruct (status =? 200)%Z eqn:Hst; [|reflexivity]. cbn [negb].
  destruct body; [discriminate|reflexivity].
Qed.

(** Nothing but a session request touches the held session. *)
Lemma step_held_session st now ev :
  is_session_request (now, ev) = false ->
  held_session (fst (step w st now ev)) = held_session st.
Proof.
  destruct ev; try discriminate; intros _; cbn [step]; try reflexivity.
  - unfold _on_mqtt_message. by_cases.
  - unfold loop_connect. by_cases.
  - destruct r; reflexivity.
  - destruct (nth_error (threads st) tid) as [[job|id|]|]; reflexivity.
  - destruct (nth_error (threads st) tid) as [[job|id|]|]; reflexivity.
Qed.

Lemma run_held_session st evs :
  forallb (fun e => negb (is_session_request e)) evs = true ->
  held_session (final w st evs) = held_session st.
Proof.
  revert st; induction evs as [|[now ev] evs IH]; intros st Hall.
  - reflexivity.
  - cbn [forallb] in Hall. apply andb_true_iff in Hall as [Hev Hall].
    apply negb_true_iff in Hev.
    cbn [final]. rewrite IH by exact Hall. apply step_held_session. exact Hev.
Qed.

Lemma copy_upload_url_reads st st' :
  held_session st' = held_session st -> copy_upload_url st' = copy_upload_url st.
Proof.
  unfold held_session, copy_upload_url. intros H. injection H as -> _. reflexivity.
Qed.

End Session.

(** C8 (as the code has it). After a session request, the held upload URL
    and token stay the same through every later event that is not another
    session request, at whatever wall-clock times these events happen:
    reading the URL at any time [t], before or after the lifetime has
    elapsed, gives the same answer as right after the request.  Nothing
    expires and nothing but a call of [request_session_qr] replaces the
    session. *)
Theorem held_session_never_expires (w : world) :
  forall st t0 lifetime resp qr evs t,
    let st1 := fst (step w st t0 (RequestSession lifetime resp qr)) in
    forallb (fun e => negb (is_session_request e)) evs = true ->
    held_session (final w st1 evs) = held_session st1
    /\ snd (step w (final w st1 evs) t CopyUploadUrl) = copy_upload_url st1.
Proof.
  intros st t0 lifetime resp qr evs t st1 Hall.
  pose proof (run_held_session w st1 evs Hall) as Hh.
  split; [exact Hh|]. cbn [step snd]. apply copy_upload_url_reads. exact Hh.
Qed.

Lemma held_session_never_expires_witness :
  let resp := PostResponse 200 ""
                (Some (JObj [("upload_url", JStr "http://x/u"); ("token", JStr "tk")])) in
  let st1 := fst (step demo gui0 0%Z (RequestSession 300 resp qr_ok)) in
  let evs := [(10, LoopConnect None); (11, MqttConnect 0); (400, MqttDisconnect 0)]%Z in
  held_session (final demo st1 evs) = (JStr "http://x/u", JStr "tk")
  /\ snd (step demo (final demo st1 evs) 301%Z CopyUploadUrl)
     = [ClipboardSet (JStr "http://x/u"); Log L_url_copied].
Proof.
  intros resp st1 evs.
  apply (held_session_never_expires demo gui0 0%Z 300%Z resp qr_ok evs 301%Z).
  reflexivity.
Defined.

(** C8, counterexample: a session requested at time 0 with a lifetime
    of 300 seconds is still handed out, unchanged, 301 seconds and a
    million seconds later; no read fails as expired. *)
Lemma session_outlives_its_lifetime :
  let resp := PostResponse 200 ""
                (Some (JObj [("upload_url", JStr "http://x/u"); ("token", JStr "tk")])) in
  let evs := [(0, RequestSession 300 resp qr_ok);
              (301, CopyUploadUrl); (1000000, CopyUploadUrl)]%Z in
  held_session (final demo gui0 evs) = (JStr "http://x/u", JStr "tk")
  /\ filter (fun a => match a with ClipboardSet _ => true | _ => false end)
       (trace demo gui0 evs)
     = [ClipboardSet (JStr "http://x/u"); ClipboardSet (JStr "http://x/u")]
  /\ ~ In (Log L_no_url) (trace demo gui0 evs).
Proof.
  vm_compute. repeat split.
  intros H. repeat (destruct H as [H|H]; [discriminate H|]). exact H.
Qed.

(** C9 (as the code has it). On a 200 answer whose body is a dict,
    [uploadUrl] is read when [upload_url] is missing or empty,
    [session_token] when [token] is, and [qr] when [qr_base64] is; with no
    upload URL under either name and a token that is a non-empty string
    the stored upload URL is [{api_base}/session_upload?token={token}],
    where [api_base] is [PRINT_SERVICE_API] without its trailing slashes;
    and when the answer is not a 200 with a parsed body (another status, a
    body that is not JSON, a request that raised) the object is left as it
    was. *)
Theorem session_response_aliases (w : world) :
  (forall st lifetime text kvs qr,
      truthy (client_secret st) = true ->
      let j := JObj kvs in
      let st' := fst (request_session_qr w st lifetime (PostResponse 200 text (Some j)) qr) in
      (truthy (item j "upload_url") = true ->
       held_session st' = (item j "upload_url", response_token j))
      /\ (truthy (item j "upload_url") = false ->
          truthy (item j "uploadUrl") = true ->
          held_session st' = (item j "uploadUrl", response_token j))
      /\ (truthy (item j "upload_url") = false ->
          truthy (item j "uploadUrl") = false ->
          forall t, response_token j = JStr t -> t <> "" ->
          held_session st'
          = (JStr (rstrip_slash (PRINT_SERVICE_API w) ++ "/session_upload?token=" ++ t),
             JStr t)))
  /\ (forall kvs,
      let j := JObj kvs in
      response_token j
      = (if truthy (item j "token") then item j "token" else item j "session_token")
      /\ response_qr j
         = (if truthy (item j "qr_base64") then item j "qr_base64" else item j "qr"))
  /\ (forall st lifetime text kvs qr current,
      truthy (client_secret st) = true ->
      upload_url_or_synth w (response_upload_url (JObj kvs)) (response_token (JObj kvs))
      = Ok current ->
      truthy (response_qr (JObj kvs)) = true ->
      b64_load qr = None ->
      In (EmitQr (QrFromResponse (response_qr (JObj kvs))))
         (snd (request_session_qr w st lifetime
                 (PostResponse 200 text (Some (JObj kvs))) qr)))
  /\ (forall st lifetime resp qr,
      is_200_json resp = false ->
      fst (request_session_qr w st lifetime resp qr) = st).
Proof.
  split; [|split; [|split]].
  - intros st lifetime text kvs qr Hs j st'. subst st' j.
    split; [|split].
    + intros Hu.
      rewrite (request_session_qr_200 w st lifetime text kvs qr (item (JObj kvs) "upload_url") Hs).
      * reflexivity.
      * unfold upload_url_or_synth, response_upload_url, py_or.
        rewrite !Hu. reflexivity.
    + intros Hu Ha.
      rewrite (request_session_qr_200 w st lifetime text kvs qr (item (JObj kvs) "uploadUrl") Hs).
      * reflexivity.
      * unfold upload_url_or_synth, response_upload_url, py_or.
        rewrite Hu, !Ha. reflexivity.
    + intros Hu Ha t Ht Hne.
      rewrite (request_session_qr_200 w st lifetime text kvs qr
                 (JStr (api_base w ++ "/session_upload?token=" ++ t)) Hs).
      * cbn [fst]. unfold held_session. cbn [set_session current_upload_url last_session_token].
        rewrite Ht. reflexivity.
      * unfold upload_url_or_synth, response_upload_url, py_or.
        rewrite Hu, Ha, Hu, Ht. cbn [truthy str_add].
        destruct (String.eqb_spec t ""); [contradiction|].
        cbn [negb]. rewrite string_append_assoc. reflexivity.
  - intros kvs j. split; reflexivity.
  - intros st lifetime text kvs qr current Hs Hc Hq Hb.
    rewrite (request_session_qr_200 w st lifetime text kvs qr current Hs Hc).
    cbn [snd]. apply in_or_app. right. apply in_or_app. right.
    unfold show_qr. rewrite Hq, Hb. left. reflexivity.
  - intros st lifetime resp qr H. apply request_session_qr_keeps. exact H.
Qed.

Lemma session_response_aliases_witness :
  let there := with_api "https://print.example.org//" demo in
  let st := mkGui (JStr "s3cret") "dev1" false false (JStr "old") (JStr "old-token") [] in
  let alias := [("uploadUrl", JStr "http://x/u"); ("session_token", JStr "tk");
                ("qr", JStr "aGk=")] in
  let bare := [("session_token", JStr "tk")] in
  held_session (fst (request_session_qr there st 300
                       (PostResponse 200 "" (Some (JObj alias))) qr_ok))
  = (JStr "http://x/u", JStr "tk")
  /\ held_session (fst (request_session_qr there st 300
                          (PostResponse 200 "" (Some (JObj bare))) qr_ok))
     = (JStr "https://print.example.org/session_upload?token=tk", JStr "tk")
  /\ In (EmitQr (QrFromResponse (JStr "aGk=")))
        (snd (request_session_qr there st 300
                (PostResponse 200 "" (Some (JObj alias))) qr_ok))
  /\ fst (request_session_qr there st 300 (PostResponse 503 "busy" None) qr_ok) = st.
Proof.
  intros there st alias bare.
  pose proof (session_response_aliases there) as (Hstore & _ & Hqr & Hkeep).
  split.
  { apply (proj1 (proj2 (Hstore st 300%Z "" alias qr_ok eq_refl))); reflexivity. }
  split.
  { apply (proj2 (proj2 (Hstore st 300%Z "" bare qr_ok eq_refl)) eq_refl eq_refl "tk").
    - reflexivity.
    - discriminate. }
  split.
  { apply (Hqr st 300%Z "" alias qr_ok (JStr "http://x/u")); reflexivity. }
  apply (Hkeep st 300%Z (PostResponse 503 "busy" None) qr_ok). reflexivity.
Defined.

(** C9, counterexample: a 200 answer that holds no upload URL and the
    token [123], a number, raises [TypeError] where the upload URL would be
    put together: nothing is synthesized and the object keeps the session
    it had. *)
Lemma numeric_token_stores_nothing :
  let st := mkGui (JStr "s3cret") "dev1" false false (JStr "old") (JStr "old-token") [] in
  let body := JObj [("token", JNum 123)] in
  let r := request_session_qr demo st 300 (PostResponse 200 "" (Some body)) qr_ok in
  truthy (response_upload_url body) = false
  /\ response_token body = JNum 123
  /\ In (Uncaught TypeError) (snd r)
  /\ held_session (fst r) = (JStr "old", JStr "old-token")
  /\ current_upload_url (fst r) <> JStr "http://localhost:8000/session_upload?token=123".
Proof.
  vm_compute. repeat split; try discriminate. tauto.
Qed.

(** ** Where the artifact is written *)

Section Artifact.

Variable w : world.








End Artifact.




(** * Further properties of the scripts *)

(** ** Device status poll *)

Section Poll.

Variable w : world.

Lemma scan_devices_first_match uuid pre dev post :
  forallb (is_other_device uuid) pre = true ->
  is_device uuid dev = true ->
  scan_devices uuid (pre ++ dev :: post)
  = Ok (item_default dev "status" (JStr "offline")).
Proof.
  intros Hpre Hdev. induction pre as [|x pre IH]; cbn [app scan_devices].
  - destruct dev; try discriminate. cbn [dict_get]. cbn [is_device] in Hdev.
    rewrite Hdev. reflexivity.
  - cbn [forallb] in Hpre. apply andb_true_iff in Hpre as [Hx Hpre].
    destruct x; try discriminate. cbn [dict_get]. cbn [is_other_device] in Hx.
    apply negb_true_iff in Hx. rewrite Hx. apply IH. exact Hpre.
Qed.

Lemma scan_devices_no_match uuid devs :
  forallb (is_other_device uuid) devs = true ->
  scan_devices uuid devs = Ok (JStr "offline").
Proof.
  induction devs as [|x devs IH]; intros Hall; cbn [scan_devices].
  - reflexivity.
  - cbn [forallb] in Hall. apply andb_true_iff in Hall as [Hx Hall].
    destruct x; try discriminate. cbn [dict_get]. cbn [is_other_device] in Hx.
    apply negb_true_iff in Hx. rewrite Hx. apply IH. exact Hall.
Qed.

Lemma scan_devices_malformed uuid pre bad post :
  forallb (is_other_device uuid) pre = true ->
  dict_get bad "uuid" = Err AttributeError ->
  scan_devices uuid (pre ++ bad :: post) = Err AttributeError.
Proof.
  intros Hpre Hbad. induction pre as [|x pre IH]; cbn [app scan_devices].
  - rewrite Hbad. reflexivity.
  - cbn [forallb] in Hpre. apply andb_true_iff in Hpre as [Hx Hpre].
    destruct x; try discriminate. cbn [dict_get]. cbn [is_other_device] in Hx.
    apply negb_true_iff in Hx. rewrite Hx. apply IH. exact Hpre.
Qed.

Lemma statuses_app (a b : list poll_action) :
  statuses (a ++ b) = statuses a ++ statuses b.
Proof.
  induction a as [|x a IH]; simpl; auto. destruct x; simpl; rewrite ?IH; reflexivity.
Qed.

Lemma poll_sleeps_app (a b : list poll_action) :
  poll_sleeps (a ++ b) = poll_sleeps a ++ poll_sleeps b.
Proof.
  induction a as [|x a IH]; simpl; auto. destruct x; simpl; rewrite ?IH; reflexivity.
Qed.

Lemma poll_once_shape st resp :
  length (filter is_poll_get (poll_devices_once w st resp)) = 1
  /\ poll_sleeps (poll_devices_once w st resp) = [POLL_DEVICES_INTERVAL]
  /\ length (statuses (poll_devices_once w st resp)) <= 1
  /\ (is_200_json resp = false -> statuses (poll_devices_once w st resp) = []).
Proof.
  unfold poll_devices_once, is_200_json.
  destruct resp as [e|status text body]; cbn [filter is_poll_get poll_sleeps statuses app length].
  - repeat split; auto.
  - destruct (status =? 200)%Z.
    + destruct body as [arr|].
      * destruct (iterate arr) as [devs|e]; [|repeat split; auto; discriminate].
        destruct (scan_devices (device_uuid st) devs) as [[| | |s| |]|e];
          cbn [app filter is_poll_get poll_sleeps statuses length];
          repeat split; auto; discriminate.
      * repeat split; auto.
    + repeat split; auto.
Qed.

End Poll.

(** X1. In a 200 answer that is a list, the first entry whose [uuid] is
    this device's decides the turn: its [status], or ["offline"] when it
    has none.  A string is emitted; any other value makes the emit raise
    [TypeError], so the turn logs a poll error and emits nothing.  The
    entries after the first match are never looked at, whatever they
    are. *)
Theorem poll_first_match_decides (w : world) :
  forall st text pre dev post,
    forallb (is_other_device (device_uuid st)) pre = true ->
    is_device (device_uuid st) dev = true ->
    poll_devices_once w st (PostResponse 200 text (Some (JArr (pre ++ dev :: post))))
    = [PollGet (rstrip_slash (PRINT_SERVICE_API w) ++ "/api/devices/") 6;
       match item_default dev "status" (JStr "offline") with
       | JStr status => EmitStatus (JStr status)
       | _ => PollLog (PL_poll_error TypeError)
       end;
       PollSleep 10].
Proof.
  intros st text pre dev post Hpre Hdev.
  unfold poll_devices_once. cbn [Z.eqb Pos.eqb iterate].
  rewrite (scan_devices_first_match (device_uuid st) pre dev post Hpre Hdev).
  destruct (item_default dev "status" (JStr "offline")); reflexivity.
Qed.

Lemma poll_first_match_decides_witness :
  statuses (poll_devices_once demo gui0
     (PostResponse 200 ""
        (Some (JArr ([JObj [("uuid", JStr "dev0"); ("status", JStr "online")]]
                     ++ JObj [("uuid", JStr "dev1"); ("status", JStr "busy")]
                     :: [JObj [("uuid", JStr "dev1"); ("status", JStr "online")]; JNum 7])))))
  = [JStr "busy"]
  /\ statuses (poll_devices_once demo gui0
       (PostResponse 200 ""
          (Some (JArr ([] ++ JObj [("uuid", JStr "dev1"); ("status", JNum 3)] :: [])))))
     = [].
Proof.
  split.
  - rewrite (poll_first_match_decides demo gui0 ""
               [JObj [("uuid", JStr "dev0"); ("status", JStr "online")]]
               (JObj [("uuid", JStr "dev1"); ("status", JStr "busy")])
               [JObj [("uuid", JStr "dev1"); ("status", JStr "online")]; JNum 7]
               eq_refl eq_refl).
    reflexivity.
  - rewrite (poll_first_match_decides demo gui0 "" []
               (JObj [("uuid", JStr "dev1"); ("status", JNum 3)]) []
               eq_refl eq_refl).
    reflexivity.
Defined.

(** X2. In a 200 answer that is a list of dicts none of which carries this
    device's [uuid] (the empty list included), the status emitted is
    ["offline"]. *)
Theorem poll_offline_when_absent (w : world) :
  forall st text devs,
    forallb (is_other_device (device_uuid st)) devs = true ->
    statuses (poll_devices_once w st (PostResponse 200 text (Some (JArr devs))))
    = [JStr "offline"].
Proof.
  intros st text devs Hall.
  unfold poll_devices_once. cbn [Z.eqb Pos.eqb iterate].
  rewrite (scan_devices_no_match (device_uuid st) devs Hall). reflexivity.
Qed.

Lemma poll_offline_when_absent_witness :
  statuses (poll_devices_once demo gui0
     (PostResponse 200 "" (Some (JArr [JObj [("uuid", JStr "dev0"); ("status", JStr "online")]]))))
  = [JStr "offline"].
Proof.
  apply (poll_offline_when_absent demo gui0 ""
           [JObj [("uuid", JStr "dev0"); ("status", JStr "online")]]).
  reflexivity.
Defined.

(** X3. An entry that is not a dict, met before this device's entry, ends
    the turn: the error is logged and no status is emitted, although a
    matching entry follows. *)
Theorem poll_malformed_entry_hides_status (w : world) :
  forall st text pre bad post,
    forallb (is_other_device (device_uuid st)) pre = true ->
    dict_get bad "uuid" = Err AttributeError ->
    poll_devices_once w st (PostResponse 200 text (Some (JArr (pre ++ bad :: post))))
    = [PollGet (api_base w ++ "/api/devices/") 6;
       PollLog (PL_poll_error AttributeError);
       PollSleep 10].
Proof.
  intros st text pre bad post Hpre Hbad.
  unfold poll_devices_once. cbn [Z.eqb Pos.eqb iterate].
  rewrite (scan_devices_malformed (device_uuid st) pre bad post Hpre Hbad).
  reflexivity.
Qed.

Lemma poll_malformed_entry_hides_status_witness :
  statuses (poll_devices_once demo gui0
     (PostResponse 200 ""
        (Some (JArr ([] ++ JStr "dev1"
                     :: [JObj [("uuid", JStr "dev1"); ("status", JStr "online")]])))))
  = [].
Proof.
  rewrite (poll_malformed_entry_hides_status demo gui0 "" [] (JStr "dev1")
             [JObj [("uuid", JStr "dev1"); ("status", JStr "online")]]
             eq_refl eq_refl).
  reflexivity.
Defined.

(** X4. Whatever the server answers, every turn of the poll loop sends
    one request, emits at most one status and then sleeps
    [POLL_DEVICES_INTERVAL] = 10 seconds; a turn whose answer is not a 200
    with a JSON body emits no status. *)
Theorem poll_loop_paces (w : world) :
  forall st resps,
    poll_sleeps (_poll_devices_loop w st resps) = repeat 10%Z (length resps)
    /\ length (filter is_poll_get (_poll_devices_loop w st resps)) = length resps
    /\ length (statuses (_poll_devices_loop w st resps))
       <= length (filter is_200_json resps).
Proof.
  intros st resps. induction resps as [|resp resps (IHs & IHg & IHe)].
  - repeat split; auto.
  - cbn [_poll_devices_loop length repeat filter].
    destruct (poll_once_shape w st resp) as (Hg & Hs & He & Hn).
    rewrite poll_sleeps_app, filter_app, statuses_app, !length_app, Hs, Hg, IHs, IHg.
    repeat split; auto.
    destruct (is_200_json resp).
    + cbn [length]. lia.
    + rewrite (Hn eq_refl). cbn [length]. lia.
Qed.

(** ** Start-up *)

Section Boot.

Variable w : world.

Lemma py_or_same (a : json) : py_or a a = a.
Proof. unfold py_or. destruct (truthy a); reflexivity. Qed.

Lemma load_credentials_usable file :
  usable_credentials file = true ->
  exists kvs,
    file = Document (JObj kvs)
    /\ _load_credentials file
       = (item (JObj kvs) "client_secret", item (JObj kvs) "device_uuid", []).
Proof.
  unfold usable_credentials. destruct file as [|e|data]; try discriminate.
  destruct data; try discriminate. intros H.
  apply andb_true_iff in H as [Hs Hu]. exists kvs. split; [reflexivity|].
  cbn [_load_credentials dict_get]. rewrite py_or_same, Hs, Hu. reflexivity.
Qed.

Lemma load_credentials_unusable file :
  usable_credentials file = false ->
  exists secret uuid m,
    _load_credentials file = (secret, uuid, [m])
    /\ truthy secret && truthy uuid = false.
Proof.
  unfold usable_credentials. destruct file as [|e|data].
  - intros _. exists JNull, JNull, BL_not_found. split; reflexivity.
  - intros _. exists JNull, JNull, (BL_read_error e). split; reflexivity.
  - destruct data; intros H;
      try (exists JNull, JNull, (BL_read_error AttributeError); split; reflexivity).
    exists (item (JObj kvs) "client_secret"), (item (JObj kvs) "device_uuid"), BL_missing_field.
    cbn [_load_credentials dict_get]. rewrite py_or_same.
    destruct (truthy (item (JObj kvs) "client_secret")) eqn:Hs;
      destruct (truthy (item (JObj kvs) "device_uuid")) eqn:Hu;
      try discriminate; rewrite ?Hs, ?Hu; split; reflexivity.
Qed.

Lemma thread_starts_ran (acts : list action) :
  filter is_thread_start (map Ran acts) = [].
Proof. induction acts as [|a acts IH]; simpl; auto. Qed.

Lemma thread_starts_unheard (ms : list boot_log) :
  filter is_thread_start (map Unheard ms) = [].
Proof. induction ms as [|a ms IH]; simpl; auto. Qed.

Lemma ran_app (a b : list init_action) : ran (a ++ b) = ran a ++ ran b.
Proof.
  induction a as [|x a IH]; simpl; auto. destruct x; simpl; rewrite ?IH; reflexivity.
Qed.

Lemma ran_map_ran (acts : list action) : ran (map Ran acts) = acts.
Proof. induction acts as [|a acts IH]; simpl; congruence. Qed.

Lemma ran_map_unheard (ms : list boot_log) : ran (map Unheard ms) = [].
Proof. induction ms as [|a ms IH]; simpl; auto. Qed.

Lemma log_view_unheard (ms : list boot_log) : log_view (map Unheard ms) = [].
Proof. induction ms as [|a ms IH]; simpl; auto. Qed.

(** A session request is sent exactly when there is a secret. *)
Lemma request_posts st lifetime resp qr :
  filter is_http_post (snd (request_session_qr w st lifetime resp qr))
  = if truthy (client_secret st)
    then [HttpPost (api_base w ++ "/api/device/session") (py_str w (client_secret st))
            (JObj [("lifetime", JNum lifetime)]) 10]
    else [].
Proof.
  unfold request_session_qr, show_qr.
  destruct (truthy (client_secret st)); cbn [negb]; by_cases.
Qed.

Lemma request_keeps_credentials st lifetime resp qr :
  client_secret (fst (request_session_qr w st lifetime resp qr)) = client_secret st
  /\ device_uuid (fst (request_session_qr w st lifetime resp qr)) = device_uuid st.
Proof. unfold request_session_qr. by_cases; split; reflexivity. Qed.

End Boot.

(** X5. The GUI starts its two background threads and sends its first
    session request exactly when the credentials file holds a dict whose
    [client_secret] and [device_uuid] are both truthy; it then runs with
    these two values.  In every other case nothing is started and no
    request is sent. *)
Theorem boot_needs_both_credentials (w : world) :
  forall file resp qr,
    let r := __init__ w file resp qr in
    filter is_thread_start (snd r)
    = (if usable_credentials file then [StartPollThread; StartMqttThread] else [])
    /\ length (filter is_http_post (ran (snd r)))
       = (if usable_credentials file then 1 else 0)
    /\ match file with
       | Document data =>
           usable_credentials file = true ->
           client_secret (fst r) = item data "client_secret"
           /\ device_uuid (fst r) = py_str w (item data "device_uuid")
       | _ => True
       end.
Proof.
  intros file resp qr r. subst r. unfold __init__.
  destruct (usable_credentials file) eqn:Hu.
  - destruct (load_credentials_usable file Hu) as (kvs & -> & ->).
    cbn [usable_credentials] in Hu. rewrite Hu.
    cbn [map app snd fst filter is_thread_start].
    rewrite thread_starts_ran. cbn [ran]. rewrite ran_map_ran, request_posts.
    apply andb_true_iff in Hu as [Hs Hid].
    cbn [client_secret]. rewrite Hs.
    split; [reflexivity|]. split; [reflexivity|].
    intros _.
    exact (request_keeps_credentials w
             (mkGui (item (JObj kvs) "client_secret")
                    (py_str w (item (JObj kvs) "device_uuid"))
                    false false JNull JNull [])
             300%Z resp qr).
  - destruct (load_credentials_unusable file Hu) as (secret & uuid & m & -> & ->).
    cbn [map snd fst filter is_thread_start ran length].
    repeat split. destruct file; auto. discriminate.
Qed.

Lemma boot_needs_both_credentials_witness :
  let file := Document (JObj [("device_uuid", JStr "dev1"); ("client_secret", JStr "s3cret")]) in
  let r := __init__ demo file (PostRaises (RequestException "down")) qr_ok in
  filter is_thread_start (snd r) = [StartPollThread; StartMqttThread]
  /\ client_secret (fst r) = JStr "s3cret"
  /\ device_uuid (fst r) = "dev1".
Proof.
  intros file r.
  pose proof (boot_needs_both_credentials demo file
                (PostRaises (RequestException "down")) qr_ok) as (Ht & _ & Hc).
  split; [exact Ht|]. exact (Hc eq_refl).
Defined.

(** X6. When the credentials file is missing, unreadable or incomplete,
    [_load_credentials] emits its message before any slot is connected:
    the message is emitted but the log view stays empty, and nothing at
    all is done. *)
Theorem boot_failure_is_silent (w : world) :
  forall file resp qr,
    usable_credentials file = false ->
    log_view (snd (__init__ w file resp qr)) = []
    /\ ran (snd (__init__ w file resp qr)) = []
    /\ exists m, snd (__init__ w file resp qr) = [Unheard m].
Proof.
  intros file resp qr Hu. unfold __init__.
  destruct (load_credentials_unusable file Hu) as (secret & uuid & m & -> & ->).
  cbn [map snd]. repeat split. exists m. reflexivity.
Qed.

Lemma boot_failure_is_silent_witness :
  log_view (snd (__init__ demo NoFile (PostRaises (RequestException "down")) qr_ok)) = []
  /\ log_view (snd (__init__ demo (Document (JObj [("client_secret", JStr "s3cret")]))
                      (PostRaises (RequestException "down")) qr_ok)) = [].
Proof.
  split.
  - apply (boot_failure_is_silent demo NoFile (PostRaises (RequestException "down")) qr_ok).
    reflexivity.
  - apply (boot_failure_is_silent demo (Document (JObj [("client_secret", JStr "s3cret")]))
             (PostRaises (RequestException "down")) qr_ok).
    reflexivity.
Defined.

(** X7. A credentials file with a [client_secret] but no [device_uuid]
    starts nothing, yet the secret is kept: a later Refresh sends the
    session request with it.  Without a secret, Refresh sends nothing and
    leaves the object as it is. *)
Theorem refresh_needs_only_the_secret (w : world) :
  (forall kvs resp0 qr0 lifetime resp qr,
      truthy (item (JObj kvs) "client_secret") = true ->
      truthy (item (JObj kvs) "device_uuid") = false ->
      let booted := __init__ w (Document (JObj kvs)) resp0 qr0 in
      filter is_thread_start (snd booted) = []
      /\ filter is_http_post (snd (request_session_qr w (fst booted) lifetime resp qr))
         = [HttpPost (api_base w ++ "/api/device/session")
              (py_str w (item (JObj kvs) "client_secret"))
              (JObj [("lifetime", JNum lifetime)]) 10])
  /\ (forall st lifetime resp qr,
      truthy (client_secret st) = false ->
      request_session_qr w st lifetime resp qr = (st, [Log L_no_secret])).
Proof.
  split.
  - intros kvs resp0 qr0 lifetime resp qr Hs Hu booted. subst booted.
    unfold __init__. cbn [_load_credentials dict_get]. rewrite py_or_same.
    rewrite Hs, Hu. cbn [negb orb andb map fst snd filter is_thread_start].
    split; [reflexivity|].
    rewrite request_posts. cbn [client_secret]. rewrite Hs. reflexivity.
  - intros st lifetime resp qr Hs. unfold request_session_qr. rewrite Hs. reflexivity.
Qed.

Lemma refresh_needs_only_the_secret_witness :
  let booted := __init__ demo (Document (JObj [("client_secret", JStr "s3cret")]))
                  (PostRaises (RequestException "down")) qr_ok in
  filter is_thread_start (snd booted) = []
  /\ filter is_http_post
       (snd (request_session_qr demo (fst booted) 300 (PostRaises (RequestException "down")) qr_ok))
     = [HttpPost "http://localhost:8000/api/device/session" "s3cret"
          (JObj [("lifetime", JNum 300)]) 10]
  /\ request_session_qr demo (mkGui JNull "dev1" false false JNull JNull []) 300
       (PostRaises (RequestException "down")) qr_ok
     = (mkGui JNull "dev1" false false JNull JNull [], [Log L_no_secret]).
Proof.
  intros booted.
  pose proof (refresh_needs_only_the_secret demo) as (Hboot & Hnone).
  pose proof (Hboot [("client_secret", JStr "s3cret")]
                (PostRaises (RequestException "down")) qr_ok 300%Z
                (PostRaises (RequestException "down")) qr_ok eq_refl eq_refl) as (H1 & H2).
  split; [exact H1|]. split; [exact H2|].
  apply (Hnone (mkGui JNull "dev1" false false JNull JNull []) 300%Z
           (PostRaises (RequestException "down")) qr_ok).
  reflexivity.
Defined.

(** ** What a run keeps *)

Section Invariants.

Variable w : world.

Lemma step_client_secret st now ev :
  client_secret (fst (step w st now ev)) = client_secret st.
Proof.
  destruct ev; cbn [step]; try reflexivity.
  - unfold _on_mqtt_message. by_cases.
  - unfold loop_connect. by_cases.
  - destruct r; reflexivity.
  - destruct (nth_error (threads st) tid) as [[job|id|]|]; reflexivity.
  - destruct (nth_error (threads st) tid) as [[job|id|]|]; reflexivity.
  - apply request_keeps_credentials.
Qed.

Lemma step_flag st now ev :
  mqtt_connected (fst (step w st now ev))
  = flag_after (mqtt_connected st) [(now, ev)].
Proof.
  destruct ev; cbn [step flag_after]; try reflexivity.
  - unfold _on_mqtt_message. by_cases.
  - unfold loop_connect. by_cases.
  - destruct r; reflexivity.
  - destruct (nth_error (threads st) tid) as [[job|id|]|]; reflexivity.
  - destruct (nth_error (threads st) tid) as [[job|id|]|]; reflexivity.
  - unfold request_session_qr. by_cases.
Qed.

Lemma step_client st now ev :
  mqtt_client (fst (step w st now ev))
  = mqtt_client st || (mqtt_available w && is_loop_connect_ok (now, ev)).
Proof.
  destruct ev; cbn [step is_loop_connect_ok snd];
    rewrite ?andb_false_r, ?orb_false_r; try reflexivity.
  - unfold _on_mqtt_message. by_cases.
  - unfold loop_connect. destruct (mqtt_available w); cbn [negb andb].
    + destruct r; cbn [fst set_mqtt_client mqtt_client];
        rewrite ?orb_true_r, ?orb_false_r; reflexivity.
    + rewrite orb_false_r. reflexivity.
  - destruct r; reflexivity.
  - destruct (nth_error (threads st) tid) as [[job|id|]|]; reflexivity.
  - destruct (nth_error (threads st) tid) as [[job|id|]|]; reflexivity.
  - unfold request_session_qr. by_cases.
Qed.

Lemma live_set_nth (l : list thread) (n : nat) (x y : thread) :
  nth_error l n = Some x ->
  length (filter is_live (set_nth n y l)) + (if is_live x then 1 else 0)
  = length (filter is_live l) + (if is_live y then 1 else 0).
Proof.
  revert n; induction l as [|a l IH]; intros [|n] H; simpl in *; try discriminate.
  - injection H as ->. destruct (is_live x), (is_live y); simpl; lia.
  - specialize (IH n H). destruct (is_live a); simpl; lia.
Qed.

(** One event publishes at most what it takes from the live threads. *)
Lemma step_publish_budget st now ev :
  length (publishes (snd (step w st now ev))) + live (fst (step w st now ev))
  <= live st + (if is_print_event w (now, ev) then 1 else 0).
Proof.
  destruct ev; cbn [step is_print_event snd fst].
  - unfold live. cbn. lia.
  - unfold live. cbn. lia.
  - destruct (is_print_command w payload) eqn:Hp.
    + destruct (json_loads w payload) as [job|] eqn:Hj.
      * rewrite (on_mqtt_message_print w st topic payload job Hj Hp).
        unfold live. cbn [fst snd set_threads threads].
        rewrite filter_app, length_app. cbn. lia.
      * unfold is_print_command in Hp. rewrite Hj in Hp. discriminate.
    + destruct (on_mqtt_message_other w st topic payload Hp) as (-> & _ & ->).
      cbn. lia.
  - unfold loop_connect, live. by_cases; cbn; lia.
  - unfold live. destruct r; cbn; lia.
  - destruct (nth_error (threads st) tid) as [[job|id|]|] eqn:H0; try (cbn; lia).
    cbn [fst snd]. rewrite publishes_fetch. unfold live. cbn [set_threads threads length].
    match goal with |- context [set_nth tid ?y _] =>
      pose proof (live_set_nth (threads st) tid (Spawned job) y H0) as Hl;
      destruct (is_live y) end; cbn [is_live] in Hl; lia.
  - destruct (nth_error (threads st) tid) as [[job|id|]|] eqn:H0; try (cbn; lia).
    cbn [fst snd]. unfold live. cbn [set_threads threads].
    pose proof (live_set_nth (threads st) tid (Saved id) Finished H0) as Hl.
    cbn [is_live] in Hl.
    assert (length (publishes (_handle_print_job_ack st now id pub)) <= 1)
      by (unfold _handle_print_job_ack; by_cases; cbn; lia).
    lia.
  - rewrite publishes_request. unfold request_session_qr, live. by_cases; cbn; lia.
  - unfold copy_upload_url. by_cases; cbn; lia.
Qed.

End Invariants.

(** X8. No event of any run changes the device identity: [client_secret]
    and [device_uuid] are the same after the run as before it. *)
Theorem credentials_never_change (w : world) :
  forall st evs,
    client_secret (final w st evs) = client_secret st
    /\ device_uuid (final w st evs) = device_uuid st.
Proof.
  intros st evs. revert st; induction evs as [|[now ev] evs IH]; intros st.
  - split; reflexivity.
  - cbn [final]. destruct (IH (fst (step w st now ev))) as [Hs Hu].
    rewrite Hs, Hu, step_client_secret, step_device_uuid. split; reflexivity.
Qed.

(** X9. The connected flag is decided by the last connect or disconnect
    callback of the run and by nothing else: a failed connect or a
    [loop_forever] that raised leaves it as it was.  The client handle is
    set by the first [connect] call that returns and is never cleared. *)
Theorem connection_state_after_run (w : world) :
  forall st evs,
    mqtt_connected (final w st evs) = flag_after (mqtt_connected st) evs
    /\ mqtt_client (final w st evs)
       = mqtt_client st || (mqtt_available w && existsb is_loop_connect_ok evs).
Proof.
  intros st evs. revert st; induction evs as [|[now ev] evs IH]; intros st.
  - cbn. rewrite andb_false_r, orb_false_r. split; reflexivity.
  - cbn [final existsb]. destruct (IH (fst (step w st now ev))) as [Hf Hc].
    rewrite Hf, Hc, step_flag, step_client. split.
    + destruct ev; reflexivity.
    + destruct (mqtt_client st), (mqtt_available w), (is_loop_connect_ok (now, ev)),
        (existsb is_loop_connect_ok evs); reflexivity.
Qed.

(** X11. Each execution publishes at most once: over any run, the number
    of status messages published, plus the threads still unfinished at
    the end, is at most the threads unfinished at the start plus the print
    commands received. *)
Theorem at_most_one_publish_per_execution (w : world) :
  forall st evs,
    length (publishes (trace w st evs)) + live (final w st evs)
    <= live st + length (filter (is_print_event w) evs).
Proof.
  intros st evs. revert st; induction evs as [|[now ev] evs IH]; intros st.
  - cbn. lia.
  - rewrite trace_cons, publishes_app, length_app. cbn [final filter].
    pose proof (step_publish_budget w st now ev) as Hs.
    specialize (IH (fst (step w st now ev))).
    destruct (is_print_event w (now, ev)); cbn [length]; lia.
Qed.

(** ** Printing and the QR picture *)

Section Printing.

Variable w : world.


Lemma show_qr_emits qr qr_b64 upload_url :
  length (filter is_emit_qr (show_qr qr qr_b64 upload_url)) <= 1.
Proof. unfold show_qr. by_cases; cbn; lia. Qed.

Lemma show_qr_broken qr qr_b64 upload_url e :
  truthy qr_b64 = true -> b64_load qr = Some e ->
  show_qr qr qr_b64 upload_url = [Log (L_qr_load_failed e)].
Proof. unfold show_qr. intros -> ->. reflexivity. Qed.

End Printing.


(** X13. A session request shows at most one QR picture.  When the answer
    carries a picture that cannot be decoded, none is shown: the picture
    is not generated locally instead, although the upload URL of the
    answer is stored. *)
Theorem broken_qr_is_not_replaced (w : world) :
  (forall st lifetime resp qr,
      length (filter is_emit_qr (snd (request_session_qr w st lifetime resp qr))) <= 1)
  /\ (forall st lifetime text kvs qr current e,
      truthy (client_secret st) = true ->
      upload_url_or_synth w (response_upload_url (JObj kvs)) (response_token (JObj kvs))
      = Ok current ->
      truthy (response_qr (JObj kvs)) = true ->
      b64_load qr = Some e ->
      let r := request_session_qr w st lifetime (PostResponse 200 text (Some (JObj kvs))) qr in
      filter is_emit_qr (snd r) = []
      /\ In (Log (L_qr_load_failed e)) (snd r)
      /\ current_upload_url (fst r) = current).
Proof.
  split.
  - intros st lifetime resp qr. unfold request_session_qr.
    destruct (truthy (client_secret st)); cbn [negb]; [|cbn; lia].
    destruct resp as [e|status text body]; [cbn; lia|].
    destruct (negb (status =? 200)%Z); [cbn; lia|].
    destruct body as [[| | | | |kvs]|]; try (cbn; lia).
    match goal with |- context [upload_url_or_synth ?a ?b ?c] =>
      destruct (upload_url_or_synth a b c) end; [|cbn; lia].
    cbn [snd]. rewrite !filter_app. cbn [filter is_emit_qr app].
    apply show_qr_emits.
  - intros st lifetime text kvs qr current e Hs Hc Hq Hb r. subst r.
    rewrite (request_session_qr_200 w st lifetime text kvs qr current Hs Hc).
    cbn [fst snd]. rewrite (show_qr_broken qr _ current e Hq Hb).
    split; [reflexivity|]. split; [|reflexivity].
    right; right; right; left; reflexivity.
Qed.

Lemma broken_qr_is_not_replaced_witness :
  let body := [("upload_url", JStr "http://x/u"); ("qr_base64", JStr "abc")] in
  let r := request_session_qr demo gui0 300 (PostResponse 200 "" (Some (JObj body)))
             (mkQr (Some (OtherError "bad picture")) None) in
  filter is_emit_qr (snd r) = []
  /\ In (Log (L_qr_load_failed (OtherError "bad picture"))) (snd r)
  /\ current_upload_url (fst r) = JStr "http://x/u".
Proof.
  intros body r.
  apply (proj2 (broken_qr_is_not_replaced demo) gui0 300%Z "" body
           (mkQr (Some (OtherError "bad picture")) None)
           (JStr "http://x/u") (OtherError "bad picture"));
    reflexivity.
Defined.

(** ** The API base *)

Section ApiBase.

Lemma rstrip_slash_slashes n : rstrip_slash (slashes n) = "".
Proof. induction n as [|n IH]; simpl; [reflexivity|rewrite IH; reflexivity]. Qed.

Lemma rstrip_slash_app_slashes s n :
  rstrip_slash (s ++ slashes n) = rstrip_slash s.
Proof.
  induction s as [|c s IH]; simpl.
  - apply rstrip_slash_slashes.
  - rewrite IH. reflexivity.
Qed.

Lemma rstrip_slash_no_trailing s : ends_with_slash (rstrip_slash s) = false.
Proof.
  induction s as [|c s IH]; simpl; [reflexivity|].
  destruct (rstrip_slash s) as [|d r] eqn:Hr.
  - destruct (Ascii.eqb c "/") eqn:Hc; simpl; [reflexivity|exact Hc].
  - exact IH.
Qed.

Lemma py_str_with_api api w v : py_str (with_api api w) v = py_str w v.
Proof. destruct v; reflexivity. Qed.

End ApiBase.

(** X14. Trailing slashes of [PRINT_SERVICE_API] do not matter to the GUI:
    the base it builds its URLs from never ends with a slash, and with any
    number of slashes added to the configured value a session request
    does and stores exactly the same. *)
Theorem api_base_ignores_trailing_slashes (w : world) :
  ends_with_slash (api_base w) = false
  /\ (forall n, api_base (with_api (PRINT_SERVICE_API w ++ slashes n) w) = api_base w)
  /\ (forall n st lifetime resp qr,
      request_session_qr (with_api (PRINT_SERVICE_API w ++ slashes n) w) st lifetime resp qr
      = request_session_qr w st lifetime resp qr).
Proof.
  assert (Hb : forall n, api_base (with_api (PRINT_SERVICE_API w ++ slashes n) w) = api_base w).
  { intros n. unfold api_base, with_api. cbn [PRINT_SERVICE_API].
    apply rstrip_slash_app_slashes. }
  split; [apply rstrip_slash_no_trailing|]. split; [exact Hb|].
  intros n st lifetime resp qr.
  unfold request_session_qr, upload_url_or_synth.
  rewrite Hb, py_str_with_api. reflexivity.
Qed.


(** ** Messages that are not print commands *)

Section Noise.

Variable w : world.

Lemma noise_step st now ev :
  is_noise w (now, ev) = true ->
  fst (step w st now ev) = st
  /\ started (snd (step w st now ev)) = []
  /\ publishes (snd (step w st now ev)) = [].
Proof.
  destruct ev; try discriminate. cbn [is_noise snd step]. intros H.
  apply on_mqtt_message_other. unfold is_print_command.
  destruct (json_loads w payload) as [[| | | | |kvs]|];
    try discriminate; try reflexivity.
  apply negb_true_iff in H. exact H.
Qed.

End Noise.

(** X15. Inbound messages the callback handles without raising and that
    are not print commands (a payload that is not JSON, or a dict with
    another [command]) leave the GUI as it is: a run with such messages
    ends in the same state, starts the same jobs and publishes the same
    status messages as the run without them. *)
Theorem other_messages_have_no_effect (w : world) :
  forall st evs,
    let kept := filter (fun e => negb (is_noise w e)) evs in
    final w st kept = final w st evs
    /\ started (trace w st kept) = started (trace w st evs)
    /\ publishes (trace w st kept) = publishes (trace w st evs).
Proof.
  intros st evs kept. subst kept.
  revert st; induction evs as [|[now ev] evs IH]; intros st.
  - repeat split.
  - cbn [filter]. destruct (is_noise w (now, ev)) eqn:Hn; cbn [negb].
    + destruct (noise_step w st now ev Hn) as (Hst & Hs & Hp).
      rewrite (trace_cons w st now ev evs), started_app, publishes_app, Hs, Hp.
      cbn [final app]. rewrite Hst. apply IH.
    + rewrite !trace_cons, !started_app, !publishes_app. cbn [final].
      destruct (IH (fst (step w st now ev))) as (Hf & Hs & Hp).
      rewrite Hf, Hs, Hp. repeat split.
Qed.

(** X16. The bare client catches nothing: a payload that is not JSON, or
    a print command whose [job_id] is missing or not a string, raises out
    of [on_message] and the script handles no further message.  In the
    second case the download has already been requested; nothing is
    written and nothing is published. *)
Theorem bare_client_stops_at_bad_message (w : world) :
  (forall uuid topic payload dl fs rest,
      json_loads w payload = None ->
      client_run w uuid (CMessage topic payload dl fs :: rest)
      = [(CMessage topic payload dl fs,
          [Log (P_msg topic payload); Uncaught JSONDecodeError])])
  /\ (forall uuid topic payload job status content fs rest,
      json_loads w payload = Some job ->
      is_print_command w payload = true ->
      is_str (item job "job_id") = false ->
      client_run w uuid (CMessage topic payload (HttpResponse status content) fs :: rest)
      = [(CMessage topic payload (HttpResponse status content) fs,
          [Log (P_msg topic payload); Log (P_downloading (item job "url"));
           HttpGet (item job "url") None; Uncaught TypeError])]).
Proof.
  split.
  - intros uuid topic payload dl fs rest Hj.
    cbn [client_run client_step]. unfold on_message. rewrite Hj. reflexivity.
  - intros uuid topic payload job status content fs rest Hj Hp Hid.
    cbn [client_run client_step]. unfold on_message, is_print_command in *.
    rewrite Hj in *. destruct job; try discriminate.
    cbn [dict_get]. rewrite Hp.
    destruct (item (JObj kvs) "job_id"); try discriminate; reflexivity.
Qed.

Lemma bare_client_stops_at_bad_message_witness :
  client_run demo "dev1"
    [CMessage topic1 "not json" (HttpRaises (OtherError "")) None;
     CMessage topic1 (dumps_flat cmd_j1) (HttpResponse 200 "PDF") None]
  = [(CMessage topic1 "not json" (HttpRaises (OtherError "")) None,
      [Log (P_msg topic1 "not json"); Uncaught JSONDecodeError])].
Proof.
  apply (proj1 (bare_client_stops_at_bad_message demo) "dev1" topic1 "not json"
           (HttpRaises (OtherError "")) None
           [CMessage topic1 (dumps_flat cmd_j1) (HttpResponse 200 "PDF") None]).
  reflexivity.
Defined.

(** ** The two command-line scripts *)

Section Scripts.

Variable w : world.

Lemma show_image_bytes_writes b64decode b64 fs :
  script_writes (show_image_bytes b64decode b64 fs)
  = match b64 with
    | JStr s =>
        match b64decode s, fs with
        | Ok data, None => [("session_qr.png", Bytes data)]
        | _, _ => []
        end
    | _ => []
    end.
Proof. unfold show_image_bytes. by_cases. Qed.

Lemma init_thread_starts file resp qr :
  filter is_thread_start (snd (__init__ w file resp qr))
  = if usable_credentials file then [StartPollThread; StartMqttThread] else [].
Proof.
  unfold __init__. destruct (usable_credentials file) eqn:Hu.
  - destruct (load_credentials_usable file Hu) as (kvs & -> & ->).
    cbn [usable_credentials] in Hu. rewrite Hu.
    cbn [map app snd filter is_thread_start]. rewrite thread_starts_ran. reflexivity.
  - destruct (load_credentials_unusable file Hu) as (secret & uuid & m & -> & ->).
    reflexivity.
Qed.

End Scripts.

(** X17. [device_qr.py] writes one file at most, [session_qr.png], holding
    the decoded [qr_base64] of the answer; it writes it when the
    credentials are a dict, the answer is [ok] with a dict body, the
    field is a string that decodes and the file can be written.  When the
    answer carries no string under [qr_base64] (a picture under [qr], as
    the GUI accepts, does not count) nothing is written, and an [ok]
    answer then ends the script with a [TypeError] after the upload URL was
    printed. *)
Theorem qr_script_writes_only_the_picture (w : world) :
  (forall b64decode cred lifetime status text kvs s data,
      response_ok status = true ->
      item (JObj kvs) "qr_base64" = JStr s ->
      b64decode s = Ok data ->
      script_writes
        (request_and_show w b64decode (Document (JObj cred)) lifetime
           (PostResponse status text (Some (JObj kvs))) None)
      = [("session_qr.png", Bytes data)])
  /\ (forall b64decode file lifetime resp fs,
      lacks_qr_base64 resp = true ->
      script_writes (request_and_show w b64decode file lifetime resp fs) = [])
  /\ (forall b64decode cred lifetime status text kvs fs,
      response_ok status = true ->
      is_str (item (JObj kvs) "qr_base64") = false ->
      request_and_show w b64decode (Document (JObj cred)) lifetime
        (PostResponse status text (Some (JObj kvs))) fs
      = [SPost (PRINT_SERVICE_API w ++ "/api/device/session")
           (Some (py_str w (item (JObj cred) "client_secret")))
           (JObj [("lifetime", JNum lifetime)]);
         SPrint (Say_status status text);
         SPrint (Say_upload_url (item (JObj kvs) "upload_url"));
         SUncaught TypeError]).
Proof.
  split; [|split].
  - intros b64decode cred lifetime status text kvs s data Hok Hq Hd.
    unfold request_and_show. cbn [dict_get]. rewrite Hok.
    cbn [script_writes]. rewrite show_image_bytes_writes, Hq, Hd. reflexivity.
  - intros b64decode file lifetime resp fs Hl.
    unfold request_and_show.
    destruct file as [|e|cred]; try reflexivity.
    destruct (dict_get cred "client_secret"); [|reflexivity].
    destruct resp as [e|status text body]; [reflexivity|].
    cbn [script_writes]. destruct (response_ok status); [|reflexivity].
    destruct body as [j|]; [|reflexivity].
    cbn [lacks_qr_base64] in Hl. apply negb_true_iff in Hl.
    destruct (dict_get j "upload_url"); [|reflexivity].
    cbn [script_writes]. rewrite show_image_bytes_writes.
    destruct (item j "qr_base64"); try reflexivity. discriminate.
  - intros b64decode cred lifetime status text kvs fs Hok Hq.
    unfold request_and_show. cbn [dict_get]. rewrite Hok.
    unfold show_image_bytes.
    destruct (item (JObj kvs) "qr_base64"); try reflexivity. discriminate.
Qed.

Lemma qr_script_writes_only_the_picture_witness :
  script_writes
    (request_and_show demo (fun s => if s =? "aGk=" then Ok "hi" else Err (OtherError "b64"))
       (Document (JObj [("client_secret", JStr "s3cret")])) 300
       (PostResponse 200 "" (Some (JObj [("upload_url", JStr "http://x/u");
                                          ("qr_base64", JStr "aGk=")]))) None)
  = [("session_qr.png", Bytes "hi")]
  /\ script_writes
       (request_and_show demo (fun s => if s =? "aGk=" then Ok "hi" else Err (OtherError "b64"))
          (Document (JObj [("client_secret", JStr "s3cret")])) 300
          (PostResponse 200 "" (Some (JObj [("upload_url", JStr "http://x/u");
                                             ("qr", JStr "aGk=")]))) None)
     = [].
Proof.
  pose proof (qr_script_writes_only_the_picture demo) as (Hyes & Hno & _).
  split.
  - apply (Hyes (fun s => if s =? "aGk=" then Ok "hi" else Err (OtherError "b64"))
             [("client_secret", JStr "s3cret")] 300%Z 200%Z ""
             [("upload_url", JStr "http://x/u"); ("qr_base64", JStr "aGk=")] "aGk=" "hi");
      reflexivity.
  - apply (Hno (fun s => if s =? "aGk=" then Ok "hi" else Err (OtherError "b64"))
             (Document (JObj [("client_secret", JStr "s3cret")])) 300%Z
             (PostResponse 200 ""
                (Some (JObj [("upload_url", JStr "http://x/u"); ("qr", JStr "aGk=")])))
             None).
    reflexivity.
Defined.

(** X18. [provision_client.py] stores whatever an [ok] answer holds,
    without looking at it.  The credentials file is left as it was when
    the answer is not [ok], has no JSON body, the request raised or the
    file could not be opened; it is left emptied or cut short, the old
    credentials lost, when the file was opened and the dump failed.  The
    GUI started on a stored document runs its threads exactly when the
    answer held a truthy [client_secret] and [device_uuid]. *)
Theorem provision_then_boot (w : world) :
  (forall API token resp fs before,
      is_ok_json resp && opened fs = false ->
      credentials_after before (provision_client API token resp fs) = before)
  /\ (forall API token status text data before e,
      response_ok status = true ->
      credentials_after before
        (provision_client API token (PostResponse status text (Some data)) (WriteRaises e))
      = Clobbered)
  /\ (forall API token status text data before resp' qr,
      response_ok status = true ->
      credentials_after before
        (provision_client API token (PostResponse status text (Some data)) Written)
      = Intact (Document data)
      /\ filter is_thread_start (snd (__init__ w (Document data) resp' qr))
         = if usable_credentials (Document data)
           then [StartPollThread; StartMqttThread] else []).
Proof.
  split; [|split].
  - intros API token resp fs before H. unfold provision_client.
    destruct resp as [e|status text body]; [reflexivity|].
    cbn [is_ok_json] in H. cbn [credentials_after].
    destruct body as [data|].
    + destruct (response_ok status); [|reflexivity].
      destruct fs; [reflexivity|discriminate|discriminate].
    + destruct (response_ok status); reflexivity.
  - intros API token status text data before e Hok.
    unfold provision_client. rewrite Hok. reflexivity.
  - intros API token status text data before resp' qr Hok.
    split; [|apply init_thread_starts].
    unfold provision_client. rewrite Hok. reflexivity.
Qed.

Lemma provision_then_boot_witness :
  let good := JObj [("device_uuid", JStr "dev1"); ("client_secret", JStr "s3cret")] in
  let old := Intact (Document (JObj [("device_uuid", JStr "dev0")])) in
  credentials_after old
    (provision_client "http://localhost:5555" "tok" (PostResponse 200 "" (Some good)) Written)
  = Intact (Document good)
  /\ filter is_thread_start
       (snd (__init__ demo (Document good) (PostRaises (RequestException "down")) qr_ok))
     = [StartPollThread; StartMqttThread]
  /\ credentials_after old
       (provision_client "http://localhost:5555" "tok" (PostResponse 200 "" (Some good))
          (WriteRaises (OSError "disk full")))
     = Clobbered
  /\ credentials_after old
       (provision_client "http://localhost:5555" "tok" (PostResponse 403 "no" None) Written)
     = old.
Proof.
  intros good old.
  pose proof (provision_then_boot demo) as (Hkeep & Hlost & Hstore).
  pose proof (Hstore "http://localhost:5555" "tok" 200%Z "" good old
                (PostRaises (RequestException "down")) qr_ok eq_refl) as (H1 & H2).
  split; [exact H1|]. split; [exact H2|].
  split.
  - apply (Hlost "http://localhost:5555" "tok" 200%Z "" good old (OSError "disk full")).
    reflexivity.
  - apply (Hkeep "http://localhost:5555" "tok" (PostResponse 403 "no" None) Written old).
    reflexivity.
Defined.
